(** * SmartLedger PQ SDK demo: key lifecycle and dual-algorithm signing

    A shallow embedding of the demo's TypeScript sources: the hexadecimal
    export/import codec ([utils/sdk-loader.ts], [SignatureVerificationSection]),
    the SDK loader, the application statistics ([App.tsx]) and the
    asynchronous handlers of the signing and key-management sections. *)

From Stdlib Require Import ZArith NArith QArith Lia Bool Ascii String.
From Stdlib.Strings Require Import Byte HexString.
From Stdlib Require Import DecimalString.
From Equations Require Import Equations.
From stdpp Require Import base option list.

Local Open Scope string_scope.
Local Open Scope N_scope.
Local Open Scope nat_scope.

(** ** JavaScript values used by the sources *)

(** Outcome of evaluating a JavaScript expression or async function body:
    it completes with a value, or an exception is thrown. *)
Inductive completion (A : Type) : Type :=
| Returns (a : A)
| Throws (error : string).
Arguments Returns {A} a.
Arguments Throws {A} error.

(** A [Uint8Array] is a fixed-length sequence of octets. *)
Abbreviation Uint8Array := (list byte).

Global Instance byte_eq_dec : EqDecision byte := Byte.byte_eq_dec.

Module JS.

(** [ToIntegerOrInfinity] on a finite number: truncation towards zero. *)
Definition ToIntegerOrInfinity (x : Q) : Z := Z.quot (Qnum x) (Zpos (Qden x)).

(** [ToIndex] (ECMAScript 7.1.22): the truncated value, or a RangeError
    when it lies outside [0, 2^53 - 1]. *)
Definition ToIndex (x : Q) : completion nat :=
  let integer := ToIntegerOrInfinity x in
  if ((0 <=? integer) && (integer <=? 2 ^ 53 - 1))%Z
  then Returns (Z.to_nat integer)
  else Throws "RangeError".

(** [new Uint8Array(length)] with a numeric argument (ECMAScript 23.2.5.1,
    the non-object branch): the element count is [ToIndex(length)] and the
    elements are zero. *)
Definition new_Uint8Array (length : Q) : completion Uint8Array :=
  match ToIndex length with
  | Returns n => Returns (repeat x00 n)
  | Throws e => Throws e
  end.

(** [ToUint8] of the result of [parseInt]; [None] stands for NaN. *)
Definition ToUint8 (v : option N) : byte :=
  match v with
  | Some n => default x00 (Byte.of_N (n mod 256))
  | None => x00
  end.

(** [bytes[i] = v] on a typed array: an index outside the array is ignored. *)
Definition typed_set (bytes : Uint8Array) (i : nat) (v : option N) : Uint8Array :=
  <[i := ToUint8 v]> bytes.

(** The character class [0-9a-fA-F]. *)
Definition is_hex_digit (c : ascii) : bool :=
  let n := nat_of_ascii c in
  ((48 <=? n) && (n <=? 57)) || ((97 <=? n) && (n <=? 102)) || ((65 <=? n) && (n <=? 70)).

Definition hex_digit_value (c : ascii) : option N :=
  let n := N_of_ascii c in
  if ((48 <=? n) && (n <=? 57))%N then Some (n - 48)%N
  else if ((97 <=? n) && (n <=? 102))%N then Some (n - 87)%N
  else if ((65 <=? n) && (n <=? 70))%N then Some (n - 55)%N
  else None.

(** [parseInt(s, 16)]: the value of the longest prefix of hexadecimal digits,
    NaN when that prefix is empty.  The white space, sign and [0x] prefix that
    [parseInt] also accepts are left out: none of them is a hexadecimal
    digit, and the only caller passes digits. *)
Fixpoint parseInt16_from (acc : N) (s : string) : N :=
  match s with
  | String c rest =>
      match hex_digit_value c with
      | Some d => parseInt16_from (16 * acc + d)%N rest
      | None => acc
      end
  | EmptyString => acc
  end.

Definition parseInt16 (s : string) : option N :=
  match s with
  | String c _ => if is_hex_digit c then Some (parseInt16_from 0%N s) else None
  | EmptyString => None
  end.

(** [n.toString(16)] for a non-negative integer: lower-case digits, no
    leading zero, ["0"] for zero. *)
Definition toString16 (n : N) : string :=
  match n with
  | N0 => "0"
  | Npos p => HexString.Raw.of_pos p ""
  end.

(** [s.padStart(2, '0')]. *)
Definition padStart2 (s : string) : string :=
  match String.length s with
  | 0 => "00"
  | 1 => String "0" s
  | _ => s
  end.

(** [s.replace(/[^0-9a-fA-F]/g, '')]: every character outside the class is
    removed.  A character outside ASCII is outside the class whether it is
    read as UTF-16 code units or as UTF-8 octets, so the 8-bit characters of
    [string] give the same result. *)
Fixpoint replace_non_hex (s : string) : string :=
  match s with
  | String c rest =>
      if is_hex_digit c then String c (replace_non_hex rest) else replace_non_hex rest
  | EmptyString => EmptyString
  end.

(** [s.substr(start, len)]. *)
Definition substr (s : string) (start len : nat) : string := substring start len s.

(** [strings.join('')]. *)
Definition join (l : list string) : string := fold_right String.append "" l.

End JS.

(** ** Hexadecimal export and import of public keys *)

Module Hex.
Import JS.

(** [arrayToHex] of [utils/sdk-loader.ts]; [length] defaults to 32. *)
Definition arrayToHex_default_length : nat := 32.

(** [b => b.toString(16).padStart(2, '0')]: the two characters printed for
    one octet. *)
Definition encode_byte (b : byte) : string := padStart2 (toString16 (Byte.to_N b)).

Definition arrayToHex (arr : Uint8Array) (length : nat) : string :=
  join (map encode_byte (firstn length arr)).

(** The call [arrayToHex(pubKey)] of [handleExportPublicKeys]. *)
Definition exportPublicKeyHex (pubKey : Uint8Array) : string :=
  arrayToHex pubKey arrayToHex_default_length.

(** The encoding written inline in [handleSaveKeys] of [KeyStorageSection]:
    [Array.from(publicKey).map(b => b.toString(16).padStart(2,'0')).join('')]. *)
Definition saveKeyHex (publicKey : Uint8Array) : string :=
  join (map encode_byte publicKey).

(** The [for] loop of [hexToUint8Array]; [i] stays even, so [i / 2] is the
    integer index the source computes. *)
Equations hex_loop (cleanHex : string) (i : nat) (bytes : Uint8Array) : Uint8Array
  by wf (String.length cleanHex - i) lt :=
  hex_loop cleanHex i bytes with lt_dec i (String.length cleanHex) := {
    | left _ => hex_loop cleanHex (i + 2)
                  (typed_set bytes (i / 2) (parseInt16 (substr cleanHex i 2)))
    | right _ => bytes }.
Next Obligation. lia. Qed.

(** The octet the loop stores at index [j]. *)
Definition parse_pair (cleanHex : string) (j : nat) : byte :=
  ToUint8 (parseInt16 (substr cleanHex (2 * j) 2)).

(** [hexToUint8Array] of [SignatureVerificationSection]. *)
Definition hexToUint8Array (hex : string) : completion Uint8Array :=
  let cleanHex := replace_non_hex hex in
  match new_Uint8Array (Z.of_nat (String.length cleanHex) # 2) with
  | Returns bytes => Returns (hex_loop cleanHex 0 bytes)
  | Throws e => Throws e
  end.

End Hex.

Import JS Hex.

(** ** Types of [types/sdk.ts] *)

Inductive SignatureSuite : Type :=
| bsv_ecdsa_secp256k1
| ml_dsa_44
| ml_dsa_65
| ml_dsa_87.

Definition suite_name (s : SignatureSuite) : string :=
  match s with
  | bsv_ecdsa_secp256k1 => "bsv-ecdsa-secp256k1"
  | ml_dsa_44 => "ml-dsa-44"
  | ml_dsa_65 => "ml-dsa-65"
  | ml_dsa_87 => "ml-dsa-87"
  end.

Global Instance SignatureSuite_eq_dec : EqDecision SignatureSuite.
Proof. solve_decision. Defined.

Inductive KeyStatus : Type := active | inactive.

Global Instance KeyStatus_eq_dec : EqDecision KeyStatus.
Proof. solve_decision. Defined.

Record KeyMeta : Type := mkKeyMeta {
  keyId : string;
  suiteId : SignatureSuite;
  usage : list string;
  status : KeyStatus }.

Record KeyRecord : Type := mkKeyRecord {
  meta : KeyMeta;
  publicKey : Uint8Array }.

Record Stats : Type := mkStats {
  keysCreated : N;
  signaturesCreated : N;
  verifications : N }.

Inductive LogType : Type := info | success | error.

(** A [LogEntry] without its [timestamp], which is the wall-clock time of the
    call. *)
Record LogEntry : Type := mkLogEntry {
  message : string;
  type : LogType }.

(** The [KeySDK] interface.  The object lives outside the application; its
    methods are asynchronous and may reject, so each one is a transition of
    the SDK's own state [S] that completes with a value or an error. *)
Record KeySDK (S : Type) : Type := mkKeySDK {
  createKey : string -> SignatureSuite -> S -> completion KeyRecord * S;
  signWithKey : string -> Uint8Array -> S -> completion Uint8Array * S;
  verifySignature : string -> Uint8Array -> Uint8Array -> S -> completion bool * S;
  listKeysForAgent : string -> option bool -> S -> completion (list KeyRecord) * S }.
Arguments createKey {S}.
Arguments signWithKey {S}.
Arguments verifySignature {S}.
Arguments listKeysForAgent {S}.

(** Truthiness of a [string | null] value: [null] and the empty string are
    falsy. *)
Definition truthy (v : option string) : bool :=
  match v with
  | Some (String _ _) => true
  | _ => false
  end.

(** ** The SDK loader of [utils/sdk-loader.ts] *)

Module Loader.

Record ScriptElement : Type := mkScript {
  src : string;
  async : bool }.

(** The part of the page the loader touches: whether the global
    [window.LumenKeys] is defined, and the children of [document.head]. *)
Record Window : Type := mkWindow {
  LumenKeys : bool;
  head : list ScriptElement }.

Inductive PromiseState : Type :=
| Pending
| Fulfilled
| Rejected (reason : string).

Definition cdn_script : ScriptElement :=
  {| src := "https://unpkg.com/@smartledger/keys@1.5.1/dist/lumen-keys.min.js";
     async := true |}.

(** The executor of the promise runs at once: it either resolves, or
    appends the script and leaves the promise pending until the script's
    [onload] or [onerror] fires. *)
Definition loadSDKFromCDN (w : Window) : PromiseState * Window :=
  if LumenKeys w then (Fulfilled, w)
  else (Pending, {| LumenKeys := LumenKeys w; head := head w ++ [cdn_script] |}).

(** [script.onload]. *)
Definition script_onload (w : Window) : PromiseState :=
  if LumenKeys w then Fulfilled else Rejected "LumenKeys SDK failed to load".

(** [script.onerror]. *)
Definition script_onerror : PromiseState := Rejected "Failed to load SDK from CDN".

(** The fetched script runs and defines the global. *)
Definition script_executes (w : Window) : Window :=
  {| LumenKeys := true; head := head w |}.

End Loader.

(** ** Application state of [App.tsx] *)

Module App.

Inductive KeyType : Type := ecdsa | mldsa.

(** The four [useState] cells of [App]; [sdk] records whether the SDK
    object has been handed over by [InitializeSection]. *)
Record State : Type := mkState {
  sdk : bool;
  ecdsaKeyId : option string;
  mldsaKeyId : option string;
  stats : Stats }.

Definition initial : State :=
  {| sdk := false;
     ecdsaKeyId := None;
     mldsaKeyId := None;
     stats := {| keysCreated := 0; signaturesCreated := 0; verifications := 0 |} |}.

Definition setSdk (s : State) : State :=
  {| sdk := true; ecdsaKeyId := ecdsaKeyId s; mldsaKeyId := mldsaKeyId s;
     stats := stats s |}.

Definition setEcdsaKeyId (k : option string) (s : State) : State :=
  {| sdk := sdk s; ecdsaKeyId := k; mldsaKeyId := mldsaKeyId s; stats := stats s |}.

Definition setMldsaKeyId (k : option string) (s : State) : State :=
  {| sdk := sdk s; ecdsaKeyId := ecdsaKeyId s; mldsaKeyId := k; stats := stats s |}.

(** [setStats((prev) => f(prev))]. *)
Definition setStats (f : Stats -> Stats) (s : State) : State :=
  {| sdk := sdk s; ecdsaKeyId := ecdsaKeyId s; mldsaKeyId := mldsaKeyId s;
     stats := f (stats s) |}.

Definition incr_keysCreated (prev : Stats) : Stats :=
  {| keysCreated := keysCreated prev + 1;
     signaturesCreated := signaturesCreated prev;
     verifications := verifications prev |}.

Definition handleKeyCreated (keyId : string) (type : KeyType) (s : State) : State :=
  let s1 :=
    match type with
    | ecdsa => setEcdsaKeyId (Some keyId) s
    | mldsa => setMldsaKeyId (Some keyId) s
    end in
  setStats incr_keysCreated s1.

Definition handleStatsUpdate (s : State) : State :=
  setStats (fun prev =>
    {| keysCreated := keysCreated prev;
       signaturesCreated := signaturesCreated prev + 1;
       verifications := verifications prev + 1 |}) s.

Definition handleKeysRotated (newEcdsaKeyId newMldsaKeyId : option string)
    (s : State) : State :=
  let s1 :=
    if truthy newEcdsaKeyId
    then setStats incr_keysCreated (setEcdsaKeyId newEcdsaKeyId s)
    else s in
  if truthy newMldsaKeyId
  then setStats incr_keysCreated (setMldsaKeyId newMldsaKeyId s1)
  else s1.

(** What can happen to the application state: the callbacks [App] hands to
    its sections. *)
Inductive Event : Type :=
| Initialized
| KeyCreated (keyId : string) (type : KeyType)
| StatsUpdate
| KeysRotated (newEcdsaKeyId newMldsaKeyId : option string).

Definition step (s : State) (e : Event) : State :=
  match e with
  | Initialized => setSdk s
  | KeyCreated k t => handleKeyCreated k t s
  | StatsUpdate => handleStatsUpdate s
  | KeysRotated e m => handleKeysRotated e m s
  end.

Definition run (events : list Event) : State := fold_left step events initial.

End App.

(** ** Handlers of the section components

    A handler is an [async] arrow function of a component.  It runs against
    the component's own [useState] cells, the application state reached
    through the callback props, and the SDK; it completes or throws, and
    what it changed before a throw stays changed.  The SDK calls and
    callback invocations made so far are kept, in order, in [effects].
    Log texts are written without their pictographs and line breaks. *)

Inductive SdkMethod : Type :=
| CreateKey (agentId : string) (suite : SignatureSuite)
| SignWithKey (keyId : string) (message : Uint8Array)
| VerifySignature (keyId : string) (message signature : Uint8Array)
| ListKeysForAgent (agentId : string) (activeOnly : option bool).

(** An SDK call is recorded with the message of its rejection, if it
    rejected. *)
Inductive Effect : Type :=
| SdkCall (method : SdkMethod) (rejected : option string)
| OnKeyCreated (keyId : string) (type : App.KeyType)
| OnStatsUpdate
| OnKeysRotated (newEcdsaKeyId newMldsaKeyId : option string).

Record World (S C : Type) : Type := mkWorld {
  logs : list LogEntry;
  component : C;
  appState : App.State;
  sdkState : S;
  effects : list Effect }.
Arguments mkWorld {S C}.
Arguments logs {S C}.
Arguments component {S C}.
Arguments appState {S C}.
Arguments sdkState {S C}.
Arguments effects {S C}.

Definition Handler (S C A : Type) : Type := World S C -> completion A * World S C.

Global Instance Handler_ret {S C} : MRet (Handler S C) :=
  fun A a w => (Returns a, w).

Global Instance Handler_bind {S C} : MBind (Handler S C) :=
  fun A B f m w =>
    match m w with
    | (Returns a, w') => f a w'
    | (Throws e, w') => (Throws e, w')
    end.

(** [try { body } catch (error) { handler } finally { final }], where
    [handler] receives [(error as Error).message]. *)
Definition try_catch_finally {S C A} (body : Handler S C A)
    (handler : string -> Handler S C A) (final : Handler S C unit) : Handler S C A :=
  fun w =>
    let (r, w1) :=
      match body w with
      | (Returns a, w') => (Returns a, w')
      | (Throws e, w') => handler e w'
      end in
    match final w1 with
    | (Returns _, w2) => (r, w2)
    | (Throws e, w2) => (Throws e, w2)
    end.

(** Decimal text of a count, as a template literal prints it. *)
Definition show (n : nat) : string := NilEmpty.string_of_uint (Nat.to_uint n).

(** [formatTime(...)] and [toFixed] of a measured duration or ratio: the
    measurements come from [performance.now()] and are not modelled. *)
Definition elapsed : string := "<time>".
Definition ratio : string := "<ratio>".

Definition dquote : string := String (ascii_of_nat 34) "".

(** [new TextEncoder().encode(s)]; a [string] already holds UTF-8 octets. *)
Definition TextEncoder_encode (s : string) : Uint8Array := list_byte_of_string s.

(** [!s.trim()]: nothing but white space (the ASCII white space characters). *)
Definition is_white_space (c : ascii) : bool :=
  let n := nat_of_ascii c in ((9 <=? n) && (n <=? 13)) || (n =? 32).

Fixpoint trim_is_empty (s : string) : bool :=
  match s with
  | String c rest => is_white_space c && trim_is_empty rest
  | EmptyString => true
  end.

Definition rejection {A} (r : completion A) : option string :=
  match r with
  | Returns _ => None
  | Throws e => Some e
  end.

Section Handlers.
Context {S C : Type}.
Variable the_sdk : KeySDK S.

Definition read : Handler S C (World S C) := fun w => (Returns w, w).

Definition setLogs (l : list LogEntry) : Handler S C unit :=
  fun w => (Returns tt, mkWorld l (component w) (appState w) (sdkState w) (effects w)).

Definition addLog (message : string) (type : LogType) : Handler S C unit :=
  fun w => (Returns tt,
            mkWorld (logs w ++ [mkLogEntry message type]) (component w) (appState w)
              (sdkState w) (effects w)).

Definition setComponent (f : C -> C) : Handler S C unit :=
  fun w => (Returns tt,
            mkWorld (logs w) (f (component w)) (appState w) (sdkState w) (effects w)).

(** [await sdk.method(...)]: the call runs on the SDK's state; the handler
    goes on only when it has settled. *)
Definition sdk_call {A} (m : SdkMethod) (method : S -> completion A * S) : Handler S C A :=
  fun w =>
    let (r, st) := method (sdkState w) in
    (r, mkWorld (logs w) (component w) (appState w) st
          (effects w ++ [SdkCall m (rejection r)])).

Definition sdk_createKey (agentId : string) (suite : SignatureSuite) :=
  sdk_call (CreateKey agentId suite) (createKey the_sdk agentId suite).

Definition sdk_signWithKey (keyId : string) (message : Uint8Array) :=
  sdk_call (SignWithKey keyId message) (signWithKey the_sdk keyId message).

Definition sdk_verifySignature (keyId : string) (message signature : Uint8Array) :=
  sdk_call (VerifySignature keyId message signature)
    (verifySignature the_sdk keyId message signature).

Definition sdk_listKeysForAgent (agentId : string) (activeOnly : option bool) :=
  sdk_call (ListKeysForAgent agentId activeOnly)
    (listKeysForAgent the_sdk agentId activeOnly).

(** A callback prop, wired by [App] to one of its own handlers. *)
Definition callback (e : Effect) (f : App.State -> App.State) : Handler S C unit :=
  fun w => (Returns tt,
            mkWorld (logs w) (component w) (f (appState w)) (sdkState w)
              (effects w ++ [e])).

Definition onKeyCreated (keyId : string) (type : App.KeyType) :=
  callback (OnKeyCreated keyId type) (App.handleKeyCreated keyId type).

Definition onStatsUpdate := callback OnStatsUpdate App.handleStatsUpdate.

Definition onKeysRotated (newEcdsaKeyId newMldsaKeyId : option string) :=
  callback (OnKeysRotated newEcdsaKeyId newMldsaKeyId)
    (App.handleKeysRotated newEcdsaKeyId newMldsaKeyId).

(** [keys.forEach((key, index) => f(key, index))]. *)
Fixpoint forEach_from {A} (index : nat) (l : list A)
    (f : A -> nat -> Handler S C unit) : Handler S C unit :=
  match l with
  | [] => mret tt
  | x :: rest => f x index;; forEach_from (index + 1) rest f
  end.

Definition forEach {A} (l : list A) (f : A -> nat -> Handler S C unit) :=
  forEach_from 0 l f.

Definition catch_log : string -> Handler S C unit :=
  fun e => addLog ("Error: " ++ e) error.

End Handlers.
Arguments read {S C}.
Arguments setLogs {S C}.
Arguments addLog {S C}.
Arguments setComponent {S C}.
Arguments onKeyCreated {S C}.
Arguments onStatsUpdate {S C}.
Arguments onKeysRotated {S C}.
Arguments forEach {S C A}.
Arguments catch_log {S C}.

(** *** [KeyCreationSection] *)

Module KeyCreationSection.

Record State : Type := mkState {
  mldsaVariant : SignatureSuite;
  isCreatingEcdsa : bool;
  isCreatingMldsa : bool }.

Definition initial : State :=
  {| mldsaVariant := ml_dsa_65; isCreatingEcdsa := false; isCreatingMldsa := false |}.

Definition setMldsaVariant (v : SignatureSuite) (c : State) : State :=
  {| mldsaVariant := v; isCreatingEcdsa := isCreatingEcdsa c;
     isCreatingMldsa := isCreatingMldsa c |}.

Definition setIsCreatingEcdsa (b : bool) (c : State) : State :=
  {| mldsaVariant := mldsaVariant c; isCreatingEcdsa := b;
     isCreatingMldsa := isCreatingMldsa c |}.

Definition setIsCreatingMldsa (b : bool) (c : State) : State :=
  {| mldsaVariant := mldsaVariant c; isCreatingEcdsa := isCreatingEcdsa c;
     isCreatingMldsa := b |}.

(** The object literal [variantNames], indexed by the selected variant. *)
Definition variantNames (v : SignatureSuite) : string :=
  match v with
  | ml_dsa_44 => "ML-DSA-44 (Level 2, fastest)"
  | ml_dsa_65 => "ML-DSA-65 (Level 3, balanced)"
  | ml_dsa_87 => "ML-DSA-87 (Level 5, maximum security)"
  | bsv_ecdsa_secp256k1 => "undefined"
  end.

Section WithSdk.
Context {S : Type} (sdk : KeySDK S).

Definition handleCreateECDSA : Handler S State unit :=
  w ← read;
  if negb (App.sdk (appState w)) then mret tt else
  setComponent (setIsCreatingEcdsa true);;
  try_catch_finally
    (addLog "Creating ECDSA key..." info;;
     keyRecord ← sdk_createKey sdk "BrowserAgent" bsv_ecdsa_secp256k1;
     addLog "ECDSA key created!" success;;
     addLog ("   Key ID: " ++ keyId (meta keyRecord)) info;;
     addLog ("   Suite: " ++ suite_name (suiteId (meta keyRecord))) info;;
     let hex := arrayToHex (publicKey keyRecord) 16 in
     addLog ("   Public Key (first 16 bytes): " ++ hex ++ "...") info;;
     onKeyCreated (keyId (meta keyRecord)) App.ecdsa;;
     onStatsUpdate)
    catch_log
    (setComponent (setIsCreatingEcdsa false)).

Definition handleCreateMLDSA : Handler S State unit :=
  w ← read;
  if negb (App.sdk (appState w)) then mret tt else
  let mldsaVariant := mldsaVariant (component w) in
  setComponent (setIsCreatingMldsa true);;
  try_catch_finally
    (addLog ("Creating " ++ variantNames mldsaVariant ++ " key...") info;;
     addLog "Initializing WASM module..." info;;
     keyRecord ← sdk_createKey sdk "BrowserAgent" mldsaVariant;
     addLog "ML-DSA key created!" success;;
     addLog ("   Key ID: " ++ keyId (meta keyRecord)) info;;
     addLog ("   Suite: " ++ suite_name (suiteId (meta keyRecord))) info;;
     addLog ("   Public Key Size: " ++ show (length (publicKey keyRecord)) ++ " bytes") info;;
     addLog "   This is QUANTUM-RESISTANT!" success;;
     onKeyCreated (keyId (meta keyRecord)) App.mldsa;;
     onStatsUpdate)
    catch_log
    (setComponent (setIsCreatingMldsa false)).

End WithSdk.
End KeyCreationSection.

(** *** [KeyManagementSection] *)

Module KeyManagementSection.

Record State : Type := mkState {
  isListing : bool;
  isRotating : bool;
  isGettingProfile : bool }.

Definition initial : State :=
  {| isListing := false; isRotating := false; isGettingProfile := false |}.

Definition setIsRotating (b : bool) (c : State) : State :=
  {| isListing := isListing c; isRotating := b; isGettingProfile := isGettingProfile c |}.

Definition setIsGettingProfile (b : bool) (c : State) : State :=
  {| isListing := isListing c; isRotating := isRotating c; isGettingProfile := b |}.

Section WithSdk.
Context {S : Type} (sdk : KeySDK S).

Definition handleRotateKeys : Handler S State unit :=
  w ← read;
  if negb (App.sdk (appState w)) then mret tt else
  let ecdsaKeyId := App.ecdsaKeyId (appState w) in
  let mldsaKeyId := App.mldsaKeyId (appState w) in
  setComponent (setIsRotating true);;
  setLogs [];;
  try_catch_finally
    (addLog "Rotating keys for BrowserAgent..." info;;
     addLog "Creating new keys..." info;;
     '(newKeys, newEcdsaKeyId) ←
       (if truthy ecdsaKeyId
        then newEcdsa ← sdk_createKey sdk "BrowserAgent" bsv_ecdsa_secp256k1;
             mret ([newEcdsa], Some (keyId (meta newEcdsa)))
        else mret (@nil KeyRecord, None));
     '(newKeys, newMldsaKeyId) ←
       (if truthy mldsaKeyId
        then newMldsa ← sdk_createKey sdk "BrowserAgent" ml_dsa_65;
             mret ((newKeys ++ [newMldsa])%list, Some (keyId (meta newMldsa)))
        else mret (newKeys, None));
     addLog ("Created " ++ show (length newKeys) ++ " new key(s):") success;;
     forEach newKeys (fun key index =>
       addLog (show (index + 1) ++ ". " ++ keyId (meta key)) info;;
       addLog ("   Suite: " ++ suite_name (suiteId (meta key))) info);;
     addLog "Keys rotated successfully" success;;
     onKeysRotated newEcdsaKeyId newMldsaKeyId;;
     onStatsUpdate)
    catch_log
    (setComponent (setIsRotating false)).

(** The listing as [handleGetProfile] filters it: [k.meta.status === 'active']. *)
Definition activeKeys (keys : list KeyRecord) : list KeyRecord :=
  List.filter (fun k => bool_decide (status (meta k) = active)) keys.

Definition handleGetProfile : Handler S State unit :=
  w ← read;
  if negb (App.sdk (appState w)) then mret tt else
  setComponent (setIsGettingProfile true);;
  setLogs [];;
  try_catch_finally
    (addLog "Getting key profile..." info;;
     keys ← sdk_listKeysForAgent sdk "BrowserAgent" (Some true);
     let activeKeys := activeKeys keys in
     addLog "Active Keys Profile:" success;;
     addLog ("   Total active keys: " ++ show (length activeKeys)) info;;
     let hasEcdsa :=
       existsb (fun k => bool_decide (suiteId (meta k) = bsv_ecdsa_secp256k1)) activeKeys in
     let hasMldsa :=
       existsb (fun k => String.prefix "ml-dsa" (suite_name (suiteId (meta k)))) activeKeys in
     if hasEcdsa && hasMldsa then
       addLog "Hybrid mode: Maximum security!" success;;
       addLog "   Classical ECDSA for current compatibility" info;;
       addLog "   Post-quantum ML-DSA for future-proofing" info
     else if hasMldsa then
       addLog "Post-quantum only: Future-ready!" success
     else if hasEcdsa then
       addLog "Classical only: Standard ECDSA" info
     else
       addLog "No active keys" info)
    catch_log
    (setComponent (setIsGettingProfile false)).

End WithSdk.
End KeyManagementSection.

(** *** [SigningSection] *)

Module SigningSection.

Record State : Type := mkState {
  isSigning : bool;
  isSigningBoth : bool }.

Definition initial : State := {| isSigning := false; isSigningBoth := false |}.

Definition setIsSigning (b : bool) (c : State) : State :=
  {| isSigning := b; isSigningBoth := isSigningBoth c |}.

Definition setIsSigningBoth (b : bool) (c : State) : State :=
  {| isSigning := isSigning c; isSigningBoth := b |}.

(** UTF-8 octets of ['Hello from the browser! ' + U+1F310]. *)
Definition hello_message : Uint8Array :=
  (TextEncoder_encode "Hello from the browser! " ++ [xf0; x9f; x8c; x90])%list.

Definition hybrid_message : Uint8Array :=
  TextEncoder_encode "Hybrid signature test message".

Section WithSdk.
Context {S : Type} (sdk : KeySDK S).

Definition handleSignAndVerify : Handler S State unit :=
  w ← read;
  if negb (App.sdk (appState w)) then mret tt else
  let ecdsaKeyId := App.ecdsaKeyId (appState w) in
  let mldsaKeyId := App.mldsaKeyId (appState w) in
  setComponent (setIsSigning true);;
  setLogs [];;
  try_catch_finally
    (let keyId := if truthy ecdsaKeyId then ecdsaKeyId else mldsaKeyId in
     if negb (truthy keyId) then mret tt else
     let keyId := default "" keyId in
     let message := hello_message in
     addLog ("Signing message with key " ++ keyId ++ "...") info;;
     signature ← sdk_signWithKey sdk keyId message;
     addLog ("Signature created in " ++ elapsed) success;;
     addLog ("   Signature size: " ++ show (length signature) ++ " bytes") info;;
     let hex := arrayToHex signature 32 in
     addLog ("   Signature (first 32 bytes hex): " ++ hex ++ "...") info;;
     addLog "Verifying signature..." info;;
     isValid ← sdk_verifySignature sdk keyId message signature;
     (if isValid : bool
      then addLog ("Signature verified in " ++ elapsed) success
      else addLog "Signature verification failed!" error);;
     onStatsUpdate)
    catch_log
    (setComponent (setIsSigning false)).

Definition handleSignWithBoth : Handler S State unit :=
  w ← read;
  let ecdsaKeyId := App.ecdsaKeyId (appState w) in
  let mldsaKeyId := App.mldsaKeyId (appState w) in
  if negb (App.sdk (appState w)) || negb (truthy ecdsaKeyId) || negb (truthy mldsaKeyId)
  then mret tt else
  let ecdsaKeyId := default "" ecdsaKeyId in
  let mldsaKeyId := default "" mldsaKeyId in
  setComponent (setIsSigningBoth true);;
  setLogs [];;
  try_catch_finally
    (let message := hybrid_message in
     addLog "Creating signatures with both algorithms..." info;;
     addLog "ECDSA Signing..." info;;
     ecdsaSig ← sdk_signWithKey sdk ecdsaKeyId message;
     addLog ("ECDSA: " ++ elapsed ++ ", " ++ show (length ecdsaSig) ++ " bytes") success;;
     addLog "ML-DSA Signing..." info;;
     mldsaSig ← sdk_signWithKey sdk mldsaKeyId message;
     addLog ("ML-DSA: " ++ elapsed ++ ", " ++ show (length mldsaSig) ++ " bytes") success;;
     addLog "Comparison:" info;;
     addLog ("   ECDSA: " ++ elapsed ++ ", " ++ show (length ecdsaSig) ++ " bytes") info;;
     addLog ("   ML-DSA: " ++ elapsed ++ ", " ++ show (length mldsaSig) ++ " bytes") info;;
     addLog ("   Size ratio: " ++ ratio ++ "x") info;;
     onStatsUpdate)
    catch_log
    (setComponent (setIsSigningBoth false)).

End WithSdk.
End SigningSection.

(** *** [CustomMessageSection] *)

Module CustomMessageSection.

Inductive Algorithm : Type := ecdsa | mldsa | both.

(** The [signatures] cell: [{ ecdsa?: ..., mldsa?: ... }], each entry
    without its measured [time]. *)
Record Signatures : Type := mkSignatures {
  sig_ecdsa : option Uint8Array;
  sig_mldsa : option Uint8Array }.

Definition no_signatures : Signatures := {| sig_ecdsa := None; sig_mldsa := None |}.

Record State : Type := mkState {
  message : string;
  selectedAlgorithm : Algorithm;
  isSigning : bool;
  signatures : Signatures }.

Definition initial : State :=
  {| message := ""; selectedAlgorithm := both; isSigning := false;
     signatures := no_signatures |}.

Definition setMessage (m : string) (c : State) : State :=
  {| message := m; selectedAlgorithm := selectedAlgorithm c;
     isSigning := isSigning c; signatures := signatures c |}.


Definition setIsSigning (b : bool) (c : State) : State :=
  {| message := message c; selectedAlgorithm := selectedAlgorithm c;
     isSigning := b; signatures := signatures c |}.

Definition setSignatures (s : Signatures) (c : State) : State :=
  {| message := message c; selectedAlgorithm := selectedAlgorithm c;
     isSigning := isSigning c; signatures := s |}.

Definition wants_ecdsa (a : Algorithm) : bool :=
  match a with ecdsa | both => true | mldsa => false end.

Definition wants_mldsa (a : Algorithm) : bool :=
  match a with mldsa | both => true | ecdsa => false end.

Section WithSdk.
Context {S : Type} (sdk : KeySDK S).

(** One of the two [if] blocks of [handleSignMessage]: sign, log, verify,
    log; the value is the entry stored in [newSignatures]. *)
Definition sign_and_verify_with (name announce : string) (keyId : string)
    (messageBytes : Uint8Array) : Handler S State Uint8Array :=
  addLog announce info;;
  signature ← sdk_signWithKey sdk keyId messageBytes;
  addLog (name ++ " signature created in " ++ elapsed) success;;
  addLog ("   Size: " ++ show (length signature) ++ " bytes") info;;
  addLog ("   Hex: " ++ arrayToHex signature 32 ++ "...") info;;
  isValid ← sdk_verifySignature sdk keyId messageBytes signature;
  addLog ("Verification: " ++ (if isValid : bool then "PASSED" else "FAILED")
            ++ " (" ++ elapsed ++ ")")
         (if isValid then success else error);;
  mret signature.

Definition handleSignMessage : Handler S State unit :=
  w ← read;
  let message := message (component w) in
  let selectedAlgorithm := selectedAlgorithm (component w) in
  let ecdsaKeyId := App.ecdsaKeyId (appState w) in
  let mldsaKeyId := App.mldsaKeyId (appState w) in
  if negb (App.sdk (appState w)) || trim_is_empty message
  then addLog "Please enter a message to sign" error else
  setComponent (setIsSigning true);;
  setLogs [];;
  setComponent (setSignatures no_signatures);;
  try_catch_finally
    (let messageBytes := TextEncoder_encode message in
     addLog ("Message: " ++ dquote ++ message ++ dquote) info;;
     addLog ("   Size: " ++ show (length messageBytes) ++ " bytes") info;;
     new_ecdsa ←
       (if wants_ecdsa selectedAlgorithm && truthy ecdsaKeyId
        then signature ← sign_and_verify_with "ECDSA" "Signing with ECDSA..."
                           (default "" ecdsaKeyId) messageBytes;
             mret (Some signature)
        else mret None);
     new_mldsa ←
       (if wants_mldsa selectedAlgorithm && truthy mldsaKeyId
        then signature ← sign_and_verify_with "ML-DSA"
                           "Signing with ML-DSA (Post-Quantum)..."
                           (default "" mldsaKeyId) messageBytes;
             mret (Some signature)
        else mret None);
     let newSignatures := {| sig_ecdsa := new_ecdsa; sig_mldsa := new_mldsa |} in
     (match new_ecdsa, new_mldsa with
      | Some e, Some m =>
          addLog "Algorithm Comparison:" info;;
          addLog ("   ECDSA: " ++ elapsed ++ ", " ++ show (length e) ++ " bytes") info;;
          addLog ("   ML-DSA: " ++ elapsed ++ ", " ++ show (length m) ++ " bytes") info;;
          addLog ("   ML-DSA is " ++ ratio ++ "x slower but quantum-resistant") info;;
          addLog ("   ML-DSA signature is " ++ ratio ++ "x larger") info
      | _, _ => mret tt
      end);;
     setComponent (setSignatures newSignatures);;
     onStatsUpdate)
    catch_log
    (setComponent (setIsSigning false)).

End WithSdk.
End CustomMessageSection.

(** ** The key store and signing engine behind [KeySDK]

    The SDK object is created by the bundle loaded from the CDN; the
    repository holds its interface and its callers only. *)

Module KeyStore.

Inductive SecurityCategory : Type := classical | post_quantum.

(** Modelled from the spec: the SuiteDescriptor of section 3 (the suite
    identifier is the key of the registry). *)
Record SuiteDescriptor : Type := mkSuiteDescriptor {
  category : SecurityCategory;
  publicKeyLength : nat;
  signatureLength : nat }.

(** Modelled from the spec: the external cryptographic-primitive provider of
    section 6 together with the Suite Registry of 4.1.  [generateKeyPair]
    takes the number of keys generated so far as its source of freshness;
    [newKeyId] names the n-th key. *)
Record Provider (H : Type) : Type := mkProvider {
  describe : SignatureSuite -> option SuiteDescriptor;
  generateKeyPair : SignatureSuite -> nat -> completion (Uint8Array * H);
  sign : SignatureSuite -> H -> Uint8Array -> completion Uint8Array;
  verify : SignatureSuite -> Uint8Array -> Uint8Array -> Uint8Array -> bool;
  newKeyId : nat -> string }.
Arguments describe {H}.
Arguments generateKeyPair {H}.
Arguments sign {H}.
Arguments verify {H}.
Arguments newKeyId {H}.

Section WithProvider.
Context {H : Type} (P : Provider H).

(** Modelled from the spec: a KeyRecord of section 3 as the Key Store
    holds it, with its owning agent (an imported key has none) and its
    private-key handle (absent for a verification-only record). *)
Record Entry : Type := mkEntry {
  record : KeyRecord;
  agent : option string;
  privateHandle : option H }.

Record Store : Type := mkStore {
  entries : list Entry;
  issued : nat }.

Definition empty : Store := {| entries := []; issued := 0 |}.

Definition has_id (id : string) (e : Entry) : bool :=
  String.eqb (keyId (meta (record e))) id.

Definition lookup_key (id : string) (st : Store) : option Entry :=
  List.find (has_id id) (entries st).

(** Modelled from the spec: [createKey] of 4.2. *)
Definition createKey (agentId : string) (suite : SignatureSuite) (st : Store)
    : completion KeyRecord * Store :=
  match describe P suite with
  | None => (Throws "UnsupportedSuite", st)
  | Some _ =>
      match generateKeyPair P suite (issued st) with
      | Throws _ => (Throws "KeyGenerationFailed", st)
      | Returns (pk, sk) =>
          let r := {| meta := {| keyId := newKeyId P (issued st);
                                 suiteId := suite;
                                 usage := ["sign"; "verify"];
                                 status := active |};
                      publicKey := pk |} in
          (Returns r,
           {| entries := entries st ++ [mkEntry r (Some agentId) (Some sk)];
              issued := Datatypes.S (issued st) |})
      end
  end.

(** Modelled from the spec: [getPublicKey] of 4.2. *)
Definition getPublicKey (id : string) (st : Store) : completion Uint8Array * Store :=
  match lookup_key id st with
  | Some e => (Returns (publicKey (record e)), st)
  | None => (Throws "KeyNotFound", st)
  end.

(** Modelled from the spec: [listKeysForAgent] of 4.2, in creation order;
    an omitted [activeOnly] lists every key. *)
Definition listKeysForAgent (agentId : string) (activeOnly : option bool) (st : Store)
    : completion (list KeyRecord) * Store :=
  let owned :=
    List.filter (fun e => match agent e with
                          | Some a => String.eqb a agentId
                          | None => false
                          end) (entries st) in
  let listed :=
    if default false activeOnly
    then List.filter (fun e => bool_decide (status (meta (record e)) = active)) owned
    else owned in
  (Returns (map record listed), st).

Definition set_inactive (e : Entry) : Entry :=
  let r := record e in
  {| record := {| meta := {| keyId := keyId (meta r); suiteId := suiteId (meta r);
                             usage := usage (meta r); status := inactive |};
                  publicKey := publicKey r |};
     agent := agent e;
     privateHandle := privateHandle e |}.

(** Modelled from the spec: [deactivate] of 4.2. *)
Definition deactivate (id : string) (st : Store) : completion unit * Store :=
  match lookup_key id st with
  | None => (Throws "KeyNotFound", st)
  | Some _ =>
      (Returns tt,
       {| entries := map (fun e => if has_id id e then set_inactive e else e) (entries st);
          issued := issued st |})
  end.

(** Modelled from the spec: [importPublicKey] of 4.2. *)
Definition importPublicKey (bytes : Uint8Array) (suite : SignatureSuite) (st : Store)
    : completion string * Store :=
  match describe P suite with
  | None => (Throws "UnknownSuite", st)
  | Some d =>
      if negb (length bytes =? publicKeyLength d) then (Throws "MalformedKey", st)
      else
        let id := newKeyId P (issued st) in
        let r := {| meta := {| keyId := id; suiteId := suite;
                               usage := ["verify"]; status := active |};
                    publicKey := bytes |} in
        (Returns id,
         {| entries := entries st ++ [mkEntry r None None];
            issued := Datatypes.S (issued st) |})
  end.

(** Modelled from the spec: [sign] of 4.3. *)
Definition signWithKey (id : string) (message : Uint8Array) (st : Store)
    : completion Uint8Array * Store :=
  match lookup_key id st with
  | None => (Throws "KeyNotFound", st)
  | Some e =>
      match privateHandle e with
      | None => (Throws "VerifyOnlyKey", st)
      | Some sk =>
          match status (meta (record e)) with
          | inactive => (Throws "InactiveKey", st)
          | active =>
              let suite := suiteId (meta (record e)) in
              match describe P suite with
              | None => (Throws "UnknownSuite", st)
              | Some d =>
                  match sign P suite sk message with
                  | Throws err => (Throws err, st)
                  | Returns signature =>
                      if length signature =? signatureLength d
                      then (Returns signature, st)
                      else (Throws "CorruptSuiteOutput", st)
                  end
              end
          end
      end
  end.

(** Modelled from the spec: [verify] of 4.3. *)
Definition verifySignature (id : string) (message signature : Uint8Array) (st : Store)
    : completion bool * Store :=
  match lookup_key id st with
  | None => (Throws "KeyNotFound", st)
  | Some e =>
      let suite := suiteId (meta (record e)) in
      match describe P suite with
      | None => (Throws "UnknownSuite", st)
      | Some d =>
          if length signature =? signatureLength d
          then (Returns (verify P suite (publicKey (record e)) message signature), st)
          else (Throws "MalformedSignature", st)
      end
  end.

(** The SDK object the application receives. *)
Definition sdk : KeySDK Store :=
  mkKeySDK Store createKey signWithKey verifySignature listKeysForAgent.

(** The mutating operations of the store, and the stores they reach. *)
Inductive Op : Type :=
| OpCreateKey (agentId : string) (suite : SignatureSuite)
| OpDeactivate (id : string)
| OpImportPublicKey (bytes : Uint8Array) (suite : SignatureSuite).

Definition apply (st : Store) (op : Op) : Store :=
  match op with
  | OpCreateKey a s => snd (createKey a s st)
  | OpDeactivate id => snd (deactivate id st)
  | OpImportPublicKey b s => snd (importPublicKey b s st)
  end.

Definition run (ops : list Op) : Store := fold_left apply ops empty.

(** The correctness of a signature suite, which the store takes from its
    provider and does not establish: [verify] accepts what [sign] produces
    for a key pair that [generateKeyPair] returned. *)
Definition provider_correct : Prop :=
  forall suite n pk sk message signature,
    generateKeyPair P suite n = Returns (pk, sk) ->
    sign P suite sk message = Returns signature ->
    verify P suite pk message signature = true.

(** An entry as [createKey] and [importPublicKey] make them: its suite is
    registered, and a private handle it owns was generated together with
    its public key. *)
Definition entry_ok (e : Entry) : Prop :=
  is_Some (describe P (suiteId (meta (record e)))) /\
  forall sk, privateHandle e = Some sk ->
    exists n, generateKeyPair P (suiteId (meta (record e))) n
              = Returns (publicKey (record e), sk).

End WithProvider.
Arguments Entry : clear implicits.
Arguments Store : clear implicits.
End KeyStore.

(** ** A stand-in provider for running the handlers

    It has the sizes of the four suites and the shape of a signature scheme
    (what [sign] produces for a generated pair, [verify] accepts), and no
    security whatever: the private handle is the first octet of the public
    key. *)

Module Demo.
Import KeyStore.

Definition describe (suite : SignatureSuite) : option SuiteDescriptor :=
  Some match suite with
       | bsv_ecdsa_secp256k1 => mkSuiteDescriptor classical 33 64
       | ml_dsa_44 => mkSuiteDescriptor post_quantum 1312 2420
       | ml_dsa_65 => mkSuiteDescriptor post_quantum 1952 3309
       | ml_dsa_87 => mkSuiteDescriptor post_quantum 2592 4627
       end.

Definition sizes (suite : SignatureSuite) : nat * nat :=
  match describe suite with
  | Some d => (publicKeyLength d, signatureLength d)
  | None => (0, 0)
  end.

Definition tag (handle : byte) (suite : SignatureSuite) (message : Uint8Array)
    : Uint8Array :=
  let n := snd (sizes suite) in
  firstn n (handle :: message ++ repeat x00 n).

Definition generateKeyPair (suite : SignatureSuite) (n : nat)
    : completion (Uint8Array * byte) :=
  let b := default x00 (Byte.of_nat (n mod 256)) in
  Returns (repeat b (fst (sizes suite)), b).

Definition sign (suite : SignatureSuite) (handle : byte) (message : Uint8Array)
    : completion Uint8Array :=
  Returns (tag handle suite message).

Definition verify (suite : SignatureSuite) (pk message signature : Uint8Array) : bool :=
  bool_decide (signature = tag (List.hd x00 pk) suite message).

Definition newKeyId (n : nat) : string := "key-" ++ show n.

Definition provider : Provider byte :=
  mkProvider byte describe generateKeyPair sign verify newKeyId.

(** A world in which the SDK has just been initialised. *)
Definition start {C} (c : C) : World (Store byte) C :=
  mkWorld [] c (App.setSdk App.initial) empty [].

(** Moving from one section of the page to another: same application and
    SDK, the other component's cells. *)
Definition enter {S C D} (d : D) (w : World S C) : World S D :=
  mkWorld [] d (appState w) (sdkState w) (effects w).

Definition the_sdk : KeySDK (Store byte) := sdk provider.

(** The application after one ECDSA key and one ML-DSA key of the given
    variant have been created through [KeyCreationSection]. *)
Definition with_both_keys (variant : SignatureSuite)
    : World (Store byte) KeyCreationSection.State :=
  let w0 := start (KeyCreationSection.setMldsaVariant variant KeyCreationSection.initial) in
  let w1 := snd (KeyCreationSection.handleCreateECDSA the_sdk w0) in
  snd (KeyCreationSection.handleCreateMLDSA the_sdk w1).

(** The same, after the caller has deactivated the key named [id]. *)
Definition deactivated (id : string) {C} (w : World (Store byte) C)
    : World (Store byte) C :=
  mkWorld (logs w) (component w) (appState w) (snd (deactivate id (sdkState w)))
    (effects w).

End Demo.

(** A 33-octet compressed secp256k1 public key. *)
Definition sample_public_key : Uint8Array :=
  [x02; x79; xbe; x66; x7e; xf9; xdc; xbb; xac; x55; xa0; x62; x95; xce; x87; x0b; x07;
   x02; x9b; xfc; xdb; x2d; xce; x28; xd9; x59; xf2; x81; x5b; x16; xf8; x17; x98].

(** Effects a rotation may have: [createKey] calls and the two callbacks. *)
Definition rotation_effect (x : Effect) : Prop :=
  match x with
  | SdkCall (CreateKey _ _) _ | OnKeysRotated _ _ | OnStatsUpdate => True
  | _ => False
  end.

(** The suites a rotation asks for. *)
Definition rotation_suite (x : Effect) : Prop :=
  match x with
  | SdkCall (CreateKey agentId suite) _ =>
      agentId = "BrowserAgent"%string /\ (suite = bsv_ecdsa_secp256k1 \/ suite = ml_dsa_65)
  | _ => True
  end.

(** ** Further notions used to state what the code does *)

(** The characters [Number.prototype.toString(16)] prints. *)
Definition is_lower_hex_digit (c : ascii) : bool :=
  let n := nat_of_ascii c in
  ((48 <=? n) && (n <=? 57)) || ((97 <=? n) && (n <=? 102)).

(** The values of the hexadecimal digits of a text, in order; every other
    character is passed over. *)
Definition digit_values (s : string) : list N :=
  omap hex_digit_value (list_ascii_of_string s).

(** The octets of a sequence of digit values: one for each whole pair. *)
Fixpoint pair_up (values : list N) : list byte :=
  match values with
  | high :: low :: rest => ToUint8 (Some (16 * high + low)%N) :: pair_up rest
  | _ => []
  end.

(** A provider like [Demo.provider] whose registry knows the classical
    suite only. *)
Definition classical_only : KeyStore.Provider byte :=
  KeyStore.mkProvider byte
    (fun suite => match suite with
                  | bsv_ecdsa_secp256k1 => Demo.describe suite
                  | _ => None
                  end)
    Demo.generateKeyPair Demo.sign Demo.verify Demo.newKeyId.

(** The three ML-DSA parameter sets. *)
Definition is_ml_dsa (suite : SignatureSuite) : bool :=
  match suite with
  | bsv_ecdsa_secp256k1 => false
  | ml_dsa_44 | ml_dsa_65 | ml_dsa_87 => true
  end.

(** Some listed key is active and of a suite that [p] accepts. *)
Definition has_active_key (p : SignatureSuite -> bool) (keys : list KeyRecord) : Prop :=
  exists k, In k keys /\ status (meta k) = active /\ p (suiteId (meta k)) = true.


(** [n] calls of [loadSDKFromCDN], one after the other, with no script event
    in between. *)
Definition load_times (n : nat) (w : Loader.Window) : Loader.Window :=
  Nat.iter n (fun w => snd (Loader.loadSDKFromCDN w)) w.

(** The keys an [App] event announces. *)
Definition keys_announced (e : App.Event) : N :=
  match e with
  | App.KeyCreated _ _ => 1
  | App.KeysRotated newEcdsaKeyId newMldsaKeyId =>
      (if truthy newEcdsaKeyId then 1 else 0) + (if truthy newMldsaKeyId then 1 else 0)
  | _ => 0
  end%N.

(** ** The remaining handlers *)

(** The components also call two SDK methods that the [KeySDK] interface
    does not declare.  They are transitions of the SDK's state like the
    others; [effects] lists the calls of the declared interface only. *)
Record KeySDKUndeclared (S : Type) : Type := mkKeySDKUndeclared {
  getPublicKey : string -> S -> completion Uint8Array * S;
  importPublicKey : Uint8Array -> string -> S -> completion string * S }.
Arguments getPublicKey {S}.
Arguments importPublicKey {S}.

(** [await sdk.method(...)] for such a method. *)
Definition sdk_call_undeclared {S C A} (method : S -> completion A * S) : Handler S C A :=
  fun w =>
    let (r, st) := method (sdkState w) in
    (r, mkWorld (logs w) (component w) (appState w) st (effects w)).

(** [try { body } catch (error) { handler }], with no [finally] block. *)
Definition try_catch {S C A} (body : Handler S C A) (handler : string -> Handler S C A)
    : Handler S C A :=
  try_catch_finally body handler (mret tt).

(** A synchronous expression that may throw, inside a handler. *)
Definition evaluate {S C A} (r : completion A) : Handler S C A := fun w => (r, w).

(** [usage.join(', ')]. *)
Definition join_comma (l : list string) : string := String.concat ", " l.

Definition status_name (s : KeyStatus) : string :=
  match s with
  | active => "active"
  | inactive => "inactive"
  end.

(** *** [handleListKeys] of [KeyManagementSection] *)

Definition setIsListing (b : bool) (c : KeyManagementSection.State)
    : KeyManagementSection.State :=
  {| KeyManagementSection.isListing := b;
     KeyManagementSection.isRotating := KeyManagementSection.isRotating c;
     KeyManagementSection.isGettingProfile := KeyManagementSection.isGettingProfile c |}.

(** The five lines [handleListKeys] writes for the key at [index]. *)
Definition log_key {S C} (key : KeyRecord) (index : nat) : Handler S C unit :=
  addLog (show (index + 1) ++ ". " ++ keyId (meta key)) info;;
  addLog ("   Suite: " ++ suite_name (suiteId (meta key))) info;;
  addLog ("   Usage: " ++ join_comma (usage (meta key))) info;;
  addLog ("   Status: " ++ status_name (status (meta key))) info;;
  addLog ("   Public Key Size: " ++ show (length (publicKey key)) ++ " bytes") info.

Definition handleListKeys {S} (sdk : KeySDK S)
    : Handler S KeyManagementSection.State unit :=
  w ← read;
  if negb (App.sdk (appState w)) then mret tt else
  setComponent (setIsListing true);;
  setLogs [];;
  try_catch_finally
    (addLog "Listing keys for BrowserAgent..." info;;
     keys ← sdk_listKeysForAgent sdk "BrowserAgent" None;
     addLog ("Found " ++ show (length keys) ++ " key(s):") success;;
     forEach keys log_key)
    catch_log
    (setComponent (setIsListing false)).

(** *** [SignatureVerificationSection] *)

Module SignatureVerificationSection.

Inductive Algorithm : Type := ecdsa | mldsa.

Definition algorithm_name (a : Algorithm) : string :=
  match a with
  | ecdsa => "ecdsa"
  | mldsa => "mldsa"
  end.

(** [algorithm.toUpperCase()]. *)
Definition algorithm_upper (a : Algorithm) : string :=
  match a with
  | ecdsa => "ECDSA"
  | mldsa => "MLDSA"
  end.

Inductive Verdict : Type := valid | invalid.

Record State : Type := mkState {
  message : string;
  publicKeyHex : string;
  signatureHex : string;
  algorithm : Algorithm;
  isVerifying : bool;
  verificationResult : option Verdict }.

Definition setIsVerifying (b : bool) (c : State) : State :=
  {| message := message c; publicKeyHex := publicKeyHex c; signatureHex := signatureHex c;
     algorithm := algorithm c; isVerifying := b;
     verificationResult := verificationResult c |}.

Definition setVerificationResult (v : option Verdict) (c : State) : State :=
  {| message := message c; publicKeyHex := publicKeyHex c; signatureHex := signatureHex c;
     algorithm := algorithm c; isVerifying := isVerifying c;
     verificationResult := v |}.

(** [!s] for a string: the empty string is falsy. *)
Definition is_empty (s : string) : bool :=
  match s with
  | EmptyString => true
  | String _ _ => false
  end.

Section WithSdk.
Context {S : Type} (sdk : KeySDK S) (more : KeySDKUndeclared S).

Definition handleVerifySignature : Handler S State unit :=
  w ← read;
  let c := component w in
  if negb (App.sdk (appState w)) || is_empty (message c) || is_empty (publicKeyHex c)
     || is_empty (signatureHex c)
  then addLog "Please fill in all fields" error else
  setComponent (setIsVerifying true);;
  setLogs [];;
  setComponent (setVerificationResult None);;
  try_catch_finally
    (addLog "Starting signature verification..." info;;
     let messageBytes := TextEncoder_encode (message c) in
     addLog ("Message: " ++ dquote ++ message c ++ dquote ++ " ("
             ++ show (length messageBytes) ++ " bytes)") info;;
     publicKey ← evaluate (hexToUint8Array (publicKeyHex c));
     addLog ("Public key: " ++ show (length publicKey) ++ " bytes") info;;
     signature ← evaluate (hexToUint8Array (signatureHex c));
     addLog ("Signature: " ++ show (length signature) ++ " bytes") info;;
     addLog ("Importing " ++ algorithm_upper (algorithm c) ++ " public key...") info;;
     keyId ← sdk_call_undeclared
               (importPublicKey more publicKey (algorithm_name (algorithm c)));
     addLog ("Key imported with ID: " ++ keyId) success;;
     addLog "Verifying signature..." info;;
     isValid ← sdk_verifySignature sdk keyId messageBytes signature;
     (if isValid : bool
      then addLog ("SIGNATURE VALID - Verified in " ++ elapsed) success;;
           addLog "The signature is authentic and matches the message!" success;;
           setComponent (setVerificationResult (Some valid))
      else addLog ("SIGNATURE INVALID - Checked in " ++ elapsed) error;;
           addLog "The signature does not match the message or key" error;;
           setComponent (setVerificationResult (Some invalid)));;
     addLog ("Algorithm: " ++ algorithm_upper (algorithm c)) info;;
     addLog ("Verification time: " ++ elapsed) info)
    (fun e => addLog ("Verification error: " ++ e) error;;
              setComponent (setVerificationResult (Some invalid)))
    (setComponent (setIsVerifying false)).

End WithSdk.
End SignatureVerificationSection.

(** *** [KeyExportSection] *)

Module KeyExportSection.

(** The [publicKeys] cell: [{ ecdsa?: string; mldsa?: string }]. *)
Record PublicKeys : Type := mkPublicKeys {
  ecdsa : option string;
  mldsa : option string }.

Record State : Type := mkState {
  publicKeys : PublicKeys;
  copied : option string }.

Definition setPublicKeys (k : PublicKeys) (c : State) : State :=
  {| publicKeys := k; copied := copied c |}.

Section WithSdk.
Context {S : Type} (more : KeySDKUndeclared S).

(** One of the two [if] blocks of [handleExportPublicKeys]. *)
Definition export_one (announce name : string) (keyId : string) : Handler S State string :=
  addLog announce info;;
  pubKey ← sdk_call_undeclared (getPublicKey more keyId);
  let hex := exportPublicKeyHex pubKey in
  addLog (name ++ " Public Key (" ++ show (length pubKey) ++ " bytes):") success;;
  addLog ("   " ++ substring 0 64 hex ++ "...") info;;
  mret hex.

Definition handleExportPublicKeys : Handler S State unit :=
  w ← read;
  if negb (App.sdk (appState w)) then mret tt else
  let ecdsaKeyId := App.ecdsaKeyId (appState w) in
  let mldsaKeyId := App.mldsaKeyId (appState w) in
  setLogs [];;
  setComponent (setPublicKeys (mkPublicKeys None None));;
  try_catch
    (keys_ecdsa ←
       (if truthy ecdsaKeyId
        then hex ← export_one "Exporting ECDSA public key..." "ECDSA"
                     (default "" ecdsaKeyId);
             mret (Some hex)
        else mret None);
     keys_mldsa ←
       (if truthy mldsaKeyId
        then hex ← export_one "Exporting ML-DSA public key..." "ML-DSA"
                     (default "" mldsaKeyId);
             mret (Some hex)
        else mret None);
     setComponent (setPublicKeys (mkPublicKeys keys_ecdsa keys_mldsa));;
     addLog "Public keys exported successfully" success;;
     addLog "These can be shared for signature verification" info)
    catch_log.

End WithSdk.
End KeyExportSection.

(** *** [KeyStorageSection] *)

Module KeyStorageSection.

(** A [StoredKeyData] without its [created] field, which is the wall-clock
    time of the save. *)
Record StoredKeyData : Type := mkStoredKeyData {
  id : string;
  algorithm : string;
  publicKey : string }.

(** The two [useState] cells, and the [localStorage] entry under
    [STORAGE_KEY].  Only this component writes the entry, always as
    [JSON.stringify] of a [StoredKeyData[]]; it is kept as the array that
    text denotes, so [JSON.parse] gives the array back, and the entry is
    never the empty text. *)
Record State : Type := mkState {
  storedKeys : list StoredKeyData;
  isLoading : bool;
  localStorage : option (list StoredKeyData) }.

Definition setStoredKeys (k : list StoredKeyData) (c : State) : State :=
  {| storedKeys := k; isLoading := isLoading c; localStorage := localStorage c |}.

Definition setIsLoading (b : bool) (c : State) : State :=
  {| storedKeys := storedKeys c; isLoading := b; localStorage := localStorage c |}.

(** [localStorage.setItem(STORAGE_KEY, JSON.stringify(keys))]. *)
Definition localStorage_setItem (k : list StoredKeyData) (c : State) : State :=
  {| storedKeys := storedKeys c; isLoading := isLoading c; localStorage := Some k |}.

(** [localStorage.removeItem(STORAGE_KEY)]. *)
Definition localStorage_removeItem (c : State) : State :=
  {| storedKeys := storedKeys c; isLoading := isLoading c; localStorage := None |}.

Section WithSdk.
Context {S : Type} (more : KeySDKUndeclared S).

Definition loadStoredKeys : Handler S State unit :=
  try_catch
    (w ← read;
     match localStorage (component w) with
     | Some keys =>
         setComponent (setStoredKeys keys);;
         addLog ("Loaded " ++ show (length keys) ++ " key(s) from browser storage") success
     | None =>
         setComponent (setStoredKeys []);;
         addLog "No keys found in storage" info
     end)
    (fun e => addLog ("Error loading keys: " ++ e) error).

(** One of the two [if] blocks of [handleSaveKeys]: the entry pushed onto
    [keysToStore]. *)
Definition save_one (name : string) (keyId : string) : Handler S State StoredKeyData :=
  addLog ("Saving " ++ name ++ " key...") info;;
  publicKey ← sdk_call_undeclared (getPublicKey more keyId);
  let hex := saveKeyHex publicKey in
  addLog (name ++ " key saved") success;;
  mret (mkStoredKeyData keyId name hex).

Definition handleSaveKeys : Handler S State unit :=
  w ← read;
  if negb (App.sdk (appState w)) then mret tt else
  let ecdsaKeyId := App.ecdsaKeyId (appState w) in
  let mldsaKeyId := App.mldsaKeyId (appState w) in
  setComponent (setIsLoading true);;
  setLogs [];;
  try_catch_finally
    (let keysToStore := [] in
     keysToStore ←
       (if truthy ecdsaKeyId
        then entry ← save_one "ECDSA" (default "" ecdsaKeyId);
             mret (keysToStore ++ [entry])%list
        else mret keysToStore);
     keysToStore ←
       (if truthy mldsaKeyId
        then entry ← save_one "ML-DSA" (default "" mldsaKeyId);
             mret (keysToStore ++ [entry])%list
        else mret keysToStore);
     setComponent (localStorage_setItem keysToStore);;
     setComponent (setStoredKeys keysToStore);;
     addLog ("Saved " ++ show (length keysToStore) ++ " key(s) to browser storage") success;;
     addLog "Keys persist across page refreshes" info)
    catch_log
    (setComponent (setIsLoading false)).

Definition handleClearStorage : Handler S State unit :=
  setComponent localStorage_removeItem;;
  setComponent (setStoredKeys []);;
  setLogs [];;
  addLog "Storage cleared" success.

End WithSdk.
End KeyStorageSection.

(** *** [InitializeSection] *)

Module InitializeSection.

(** The two [useState] cells next to the log, and the page the loader
    works on. *)
Record State : Type := mkState {
  isInitialized : bool;
  isLoading : bool;
  window : Loader.Window }.

Definition setIsInitialized (b : bool) (c : State) : State :=
  {| isInitialized := b; isLoading := isLoading c; window := window c |}.

Definition setIsLoading (b : bool) (c : State) : State :=
  {| isInitialized := isInitialized c; isLoading := b; window := window c |}.

Definition setWindow (p : Loader.Window) (c : State) : State :=
  {| isInitialized := isInitialized c; isLoading := isLoading c; window := p |}.

(** What the browser does with the appended script: it runs, defining the
    global or not, and [onload] fires; or the fetch fails and [onerror]
    fires. *)
Inductive ScriptEvent : Type :=
| script_load (defines_global : bool)
| script_error.

Definition script_fires (ev : ScriptEvent) (p : Loader.Window)
    : Loader.PromiseState * Loader.Window :=
  match ev with
  | script_load defines_global =>
      let p' := if defines_global then Loader.script_executes p else p in
      (Loader.script_onload p', p')
  | script_error => (Loader.script_onerror, p)
  end.

Section WithEnvironment.
Context {S : Type}.
(** How [window.LumenKeys.createKeySDK()] settles. *)
Variable createKeySDK : completion unit.

(** [onInitialized(sdk)], which [App] binds to [setSdk]. *)
Definition onInitialized : Handler S State unit :=
  fun w => (Returns tt,
            mkWorld (logs w) (component w) (App.step (appState w) App.Initialized)
              (sdkState w) (effects w)).

(** [handleInitialize] up to its first [await]: the promise of
    [loadSDKFromCDN()] as the executor leaves it. *)
Definition handleInitialize_start (w : World S State) : Loader.PromiseState * World S State :=
  let (_, w1) := (setComponent (setIsLoading true);;
                  setLogs [];;
                  addLog "Loading SDK from CDN..." info) w in
  let (promise, p) := Loader.loadSDKFromCDN (window (component w1)) in
  (promise, snd (setComponent (setWindow p) w1)).

(** The rest of [handleInitialize], run when the awaited promise has
    settled with [loaded]. *)
Definition handleInitialize_resume (loaded : completion unit) : Handler S State unit :=
  try_catch_finally
    (evaluate loaded;;
     addLog "Creating KeySDK instance..." info;;
     w ← read;
     (if negb (Loader.LumenKeys (window (component w)))
      then evaluate (Throws "LumenKeys SDK not available")
      else mret tt);;
     evaluate createKeySDK;;
     addLog "SDK initialized successfully!" success;;
     addLog "Available features:" info;;
     addLog "  ECDSA signatures (secp256k1)" info;;
     addLog "  ML-DSA signatures (Post-Quantum)" info;;
     addLog "  Hybrid signing support" info;;
     addLog "  Key lifecycle management" info;;
     setComponent (setIsInitialized true);;
     onInitialized)
    (fun e => addLog ("Initialization failed: " ++ e) error)
    (setComponent (setIsLoading false)).

(** How a promise that has settled completes the [await]; a pending
    promise does not let the handler go on. *)
Definition settled (promise : Loader.PromiseState) : option (completion unit) :=
  match promise with
  | Loader.Pending => None
  | Loader.Fulfilled => Some (Returns tt)
  | Loader.Rejected reason => Some (Throws reason)
  end.

(** [handleInitialize] in a browser that answers the appended script, if
    one is appended, with [ev].  [None]: the handler is still waiting. *)
Definition handleInitialize (ev : ScriptEvent) (w : World S State)
    : option (completion unit * World S State) :=
  let (promise, w1) := handleInitialize_start w in
  match settled promise with
  | Some loaded => Some (handleInitialize_resume loaded w1)
  | None =>
      let (promise', p) := script_fires ev (window (component w1)) in
      let w2 := snd (setComponent (setWindow p) w1) in
      match settled promise' with
      | Some loaded => Some (handleInitialize_resume loaded w2)
      | None => None
      end
  end.

End WithEnvironment.
End InitializeSection.

(** *** [PerformanceSection] *)

(** [for (let i = 0; i < count; i++) { await body(i) }], started at [i]. *)
Fixpoint for_loop_from {S C} (i count : nat) (body : nat -> Handler S C unit)
    : Handler S C unit :=
  match count with
  | O => mret tt
  | Datatypes.S k => body i;; for_loop_from (Datatypes.S i) k body
  end.

Definition for_loop {S C} (count : nat) (body : nat -> Handler S C unit) : Handler S C unit :=
  for_loop_from 0 count body.

(** [Math.round] of a rate computed from a measured duration. *)
Definition rate : string := "<rate>".

Module PerformanceSection.

Definition State : Type := bool.

Definition setIsRunning (b : bool) (c : State) : State := b.

Definition iterations : nat := 100.

Section WithSdk.
Context {S : Type} (sdk : KeySDK S).

Definition handleRunPerformanceTest : Handler S State unit :=
  w ← read;
  if negb (App.sdk (appState w)) then mret tt else
  setComponent (setIsRunning true);;
  setLogs [];;
  try_catch_finally
    (addLog "Running performance test..." info;;
     addLog "Testing 10 key creations and 100 sign/verify operations" info;;
     let message := TextEncoder_encode "Performance test message" in
     addLog "ECDSA Performance:" info;;
     for_loop 10 (fun i =>
       sdk_createKey sdk ("PerfAgent" ++ show i) bsv_ecdsa_secp256k1;; mret tt);;
     addLog ("   Key creation (10x): " ++ elapsed ++ " (" ++ elapsed ++ " avg)") info;;
     testKey ← sdk_createKey sdk "PerfTest" bsv_ecdsa_secp256k1;
     for_loop iterations (fun i =>
       sdk_signWithKey sdk (keyId (meta testKey)) message;; mret tt);;
     addLog ("   Signing (" ++ show iterations ++ "x): " ++ elapsed
             ++ " (" ++ elapsed ++ " avg)") info;;
     sig ← sdk_signWithKey sdk (keyId (meta testKey)) message;
     for_loop iterations (fun i =>
       sdk_verifySignature sdk (keyId (meta testKey)) message sig;; mret tt);;
     addLog ("   Verification (" ++ show iterations ++ "x): " ++ elapsed
             ++ " (" ++ elapsed ++ " avg)") success;;
     addLog "Performance test complete!" success;;
     addLog "Throughput:" info;;
     addLog ("   " ++ rate ++ " signatures/sec") info;;
     addLog ("   " ++ rate ++ " verifications/sec") info)
    catch_log
    (setComponent (setIsRunning false)).

End WithSdk.
End PerformanceSection.

(** The two undeclared methods over the key store of [Demo]; the page's
    algorithm names are read as suites. *)
Definition demo_suite (algorithm : string) : option SignatureSuite :=
  if String.eqb algorithm "ecdsa" then Some bsv_ecdsa_secp256k1
  else if String.eqb algorithm "mldsa" then Some ml_dsa_65
  else None.

Definition demo_undeclared : KeySDKUndeclared (KeyStore.Store byte) :=
  mkKeySDKUndeclared (KeyStore.Store byte)
    KeyStore.getPublicKey
    (fun bytes algorithm st =>
       match demo_suite algorithm with
       | Some suite => KeyStore.importPublicKey Demo.provider bytes suite st
       | None => (Throws "UnknownSuite", st)
       end).

(** ** Notions used to state what the remaining handlers do *)

(** A page refresh as [KeyStorageSection] sees it: the cells start over,
    the [localStorage] entry stays, and the mount effect runs
    [loadStoredKeys]. *)
Definition KeyStorageSection_mount {S} (w : World S KeyStorageSection.State)
    : World S KeyStorageSection.State :=
  let fresh :=
    KeyStorageSection.mkState [] false (KeyStorageSection.localStorage (component w)) in
  snd (KeyStorageSection.loadStoredKeys
         (mkWorld [] fresh (appState w) (sdkState w) (effects w))).


(** Whether the script answers with a defined global. *)
Definition defines_LumenKeys (ev : InitializeSection.ScriptEvent) : bool :=
  match ev with
  | InitializeSection.script_load defines_global => defines_global
  | InitializeSection.script_error => false
  end.

(** The line [handleInitialize] logs in its [catch] block. *)
Definition failed (e : string) : LogEntry :=
  mkLogEntry ("Initialization failed: " ++ e) error.

(** * Properties *)

Local Open Scope list_scope.

(** ** The hexadecimal codec *)

Example hexToUint8Array_separators :
  hexToUint8Array "0xAB, 0f:7" = Returns [x0a; xb0; xf7].
Proof. reflexivity. Qed.

Example arrayToHex_pads : arrayToHex [x00; xff; x0a; x10] 32 = "00ff0a10".
Proof. reflexivity. Qed.

Lemma hex_loop_length s i bytes :
  length (hex_loop s i bytes) = length bytes.
Proof.
  funelim (hex_loop s i bytes); [| reflexivity].
  rewrite H. unfold typed_set. apply length_insert.
Qed.

Lemma hex_loop_lookup s i bytes j :
  Nat.Even i ->
  hex_loop s i bytes !! j =
    if decide (i <= 2 * j /\ 2 * j < String.length s /\ j < length bytes)
    then Some (parse_pair s j) else bytes !! j.
Proof.
  funelim (hex_loop s i bytes); intros [k Hk]; subst i.
  - rewrite H by (exists (S k); lia). clear H Heq Heqcall.
    unfold typed_set. rewrite length_insert.
    assert (Hd : (2 * k) `div` 2 = k)
      by (rewrite (Nat.mul_comm 2 k); apply Nat.div_mul; lia).
    rewrite Hd; clear Hd.
    destruct (decide (k = j)) as [->|Hne].
    + repeat case_decide; try lia.
      * rewrite list_lookup_insert_eq by lia. reflexivity.
      * rewrite list_insert_ge by lia. reflexivity.
    + rewrite list_lookup_insert_ne by done.
      repeat case_decide; try lia; reflexivity.
  - case_decide; [lia | reflexivity].
Qed.

Lemma encode_byte_digits (b : byte) :
  exists c1 c2,
    encode_byte b = String c1 (String c2 "") /\
    is_hex_digit c1 = true /\ is_hex_digit c2 = true /\
    ToUint8 (parseInt16 (String c1 (String c2 ""))) = b.
Proof. destruct b; do 2 eexists; repeat split; reflexivity. Qed.

Lemma replace_non_hex_encoded (l : list byte) :
  replace_non_hex (join (map encode_byte l)) = join (map encode_byte l).
Proof.
  induction l as [|b l IH]; [reflexivity|].
  destruct (encode_byte_digits b) as (c1 & c2 & E & H1 & H2 & _).
  cbn [map join fold_right]. rewrite E. cbn. rewrite H1, H2.
  fold (join (map encode_byte l)). by rewrite IH.
Qed.

Lemma length_encoded (l : list byte) :
  String.length (join (map encode_byte l)) = 2 * length l.
Proof.
  induction l as [|b l IH]; [reflexivity|].
  destruct (encode_byte_digits b) as (c1 & c2 & E & _).
  cbn [map join fold_right]. rewrite E. cbn [String.append String.length].
  fold (join (map encode_byte l)). rewrite IH. cbn [length]. lia.
Qed.

Lemma parse_pair_encoded (l : list byte) (j : nat) (b : byte) :
  l !! j = Some b -> parse_pair (join (map encode_byte l)) j = b.
Proof.
  revert j; induction l as [|a l IH]; intros j Hj; [discriminate|].
  destruct (encode_byte_digits a) as (c1 & c2 & E & _ & _ & P).
  unfold parse_pair, substr. cbn [map join fold_right]. rewrite E.
  cbn [String.append]. fold (join (map encode_byte l)).
  destruct j as [|j].
  - injection Hj as <-. cbn [Nat.mul substring].
    replace (substring 0 0 (join (map encode_byte l))) with ""
      by (destruct (join (map encode_byte l)); reflexivity).
    exact P.
  - replace (2 * S j) with (S (S (2 * j))) by lia. cbn [substring].
    apply (IH j). exact Hj.
Qed.

Lemma new_Uint8Array_half (n : nat) :
  (Z.of_nat n <= 2 ^ 53 - 1)%Z ->
  new_Uint8Array (Z.of_nat n # 2) = Returns (repeat x00 (n / 2)).
Proof.
  intros Hn. unfold new_Uint8Array, ToIndex, ToIntegerOrInfinity. cbn [Qnum Qden].
  assert (E : Z.quot (Z.of_nat n) 2 = Z.of_nat (n / 2)).
  { rewrite Z.quot_div_nonneg by lia. rewrite Nat2Z.inj_div. reflexivity. }
  rewrite E, Nat2Z.id.
  assert (n / 2 <= n) by (apply Nat.Div0.div_le_upper_bound; lia).
  destruct (0 <=? Z.of_nat (n / 2))%Z eqn:E1; [| lia].
  destruct (Z.of_nat (n / 2) <=? 2 ^ 53 - 1)%Z eqn:E2; [reflexivity | lia].
Qed.

(** Decoding the hexadecimal text of [l] gives [l] back. *)
Lemma decode_encoded (l : list byte) :
  (Z.of_nat (2 * length l) <= 2 ^ 53 - 1)%Z ->
  hexToUint8Array (join (map encode_byte l)) = Returns l.
Proof.
  intros Hl. unfold hexToUint8Array. rewrite replace_non_hex_encoded.
  rewrite length_encoded, new_Uint8Array_half by exact Hl.
  f_equal. apply list_eq; intros j.
  rewrite hex_loop_lookup by (exists 0; lia).
  rewrite length_encoded, repeat_length.
  assert (Hd : (2 * length l) `div` 2 = length l)
    by (rewrite (Nat.mul_comm 2); apply Nat.div_mul; lia).
  rewrite Hd. case_decide as Hc.
  - destruct (lookup_lt_is_Some_2 l j) as [b Hb]; [lia|].
    rewrite Hb. f_equal. by apply parse_pair_encoded.
  - rewrite (lookup_ge_None_2 l j) by lia.
    apply lookup_ge_None_2. rewrite repeat_length. lia.
Qed.

(** What the import path recovers from [arrayToHex]: the first [length] octets. *)
Lemma hexToUint8Array_arrayToHex (arr : Uint8Array) (len : nat) :
  (Z.of_nat (2 * len) <= 2 ^ 53 - 1)%Z ->
  hexToUint8Array (arrayToHex arr len) = Returns (firstn len arr).
Proof.
  intros Hl. apply decode_encoded. rewrite length_firstn. lia.
Qed.

(** The sibling encoding of [handleSaveKeys] keeps every octet. *)
Lemma hexToUint8Array_saveKeyHex (publicKey : Uint8Array) :
  (Z.of_nat (2 * length publicKey) <= 2 ^ 53 - 1)%Z ->
  hexToUint8Array (saveKeyHex publicKey) = Returns publicKey.
Proof. apply decode_encoded. Qed.

Lemma export_import_prefix (pubKey : Uint8Array) :
  hexToUint8Array (exportPublicKeyHex pubKey) = Returns (firstn 32 pubKey).
Proof. apply hexToUint8Array_arrayToHex. vm_compute. discriminate. Qed.

Lemma replace_non_hex_filter (s : string) :
  list_ascii_of_string (replace_non_hex s) =
  List.filter is_hex_digit (list_ascii_of_string s).
Proof.
  induction s as [|c s IH]; [reflexivity|].
  cbn. destruct (is_hex_digit c); cbn; by rewrite IH.
Qed.

Lemma replace_non_hex_length (s : string) :
  String.length (replace_non_hex s) <= String.length s.
Proof.
  induction s as [|c s IH]; [reflexivity|].
  cbn. destruct (is_hex_digit c); cbn; lia.
Qed.

Lemma replace_non_hex_get (s : string) (n : nat) (c : ascii) :
  String.get n (replace_non_hex s) = Some c -> is_hex_digit c = true.
Proof.
  revert n; induction s as [|a s IH]; intros n; [discriminate|].
  cbn. destruct (is_hex_digit a) eqn:Ha; [| apply IH].
  destruct n as [|n]; cbn; [intros [= <-]; exact Ha | apply IH].
Qed.

Lemma get_lt (s : string) (n : nat) :
  n < String.length s -> exists c, String.get n s = Some c.
Proof.
  revert n; induction s as [|a s IH]; intros n Hn; cbn in Hn; [lia|].
  destruct n as [|n]; cbn; [eauto | apply IH; lia].
Qed.

Lemma substr_two (s : string) (n : nat) (d1 d2 : ascii) :
  String.get n s = Some d1 -> String.get (S n) s = Some d2 ->
  substr s n 2 = String d1 (String d2 "").
Proof.
  unfold substr. revert n; induction s as [|a s IH]; intros n H1 H2; [discriminate|].
  destruct n as [|n].
  - cbn in H1. injection H1 as ->. cbn in H2.
    destruct s as [|b s]; [discriminate|]. cbn in H2. injection H2 as ->.
    cbn. destruct s; reflexivity.
  - cbn in *. by apply IH.
Qed.

Lemma hex_digit_value_digit (c : ascii) :
  is_hex_digit c = true -> exists v, hex_digit_value c = Some v /\ (v < 16)%N.
Proof.
  destruct c as [[] [] [] [] [] [] [] []]; vm_compute; intros H;
    try discriminate H; eexists; split; reflexivity.
Qed.

Lemma ToUint8_pair (d1 d2 : ascii) (v1 v2 : N) :
  hex_digit_value d1 = Some v1 -> hex_digit_value d2 = Some v2 ->
  (v1 < 16)%N -> (v2 < 16)%N -> is_hex_digit d1 = true ->
  Byte.to_N (ToUint8 (parseInt16 (String d1 (String d2 "")))) = (16 * v1 + v2)%N.
Proof.
  intros H1 H2 L1 L2 Hd. unfold parseInt16. rewrite Hd.
  cbn [parseInt16_from]. rewrite H1, H2. unfold ToUint8.
  replace (16 * (16 * 0 + v1) + v2)%N with (16 * v1 + v2)%N by lia.
  rewrite N.mod_small by lia.
  destruct (Byte.of_N (16 * v1 + v2)) as [b|] eqn:E.
  - cbn. by apply Byte.to_of_N.
  - apply Byte.of_N_None_iff in E. lia.
Qed.

(** ** Export, import and the decoder on arbitrary text *)

(** C1, at the failing input.  The export path calls [arrayToHex] with its
    default length, so for the 33-octet key above the exported text decodes
    to the first 32 octets only; the text written by [handleSaveKeys] for the
    same key decodes to the whole key. *)
Theorem export_import_drops_octets :
  length sample_public_key = 33 /\
  hexToUint8Array (exportPublicKeyHex sample_public_key)
    = Returns (firstn 32 sample_public_key) /\
  hexToUint8Array (exportPublicKeyHex sample_public_key) <> Returns sample_public_key /\
  hexToUint8Array (saveKeyHex sample_public_key) = Returns sample_public_key.
Proof.
  split; [reflexivity |]. split; [reflexivity |].
  split; [| reflexivity].
  intros H. vm_compute in H. discriminate H.
Qed.

(** C8, as the claim states its last part: a text with an odd number of
    hexadecimal digits does not make the decoder throw.  ["abc"] has three
    digits; the array is built with one element and the decoder returns it. *)
Lemma hexToUint8Array_odd_returns :
  Nat.Odd (String.length (replace_non_hex "abc")) /\
  hexToUint8Array "abc" = Returns [xab] /\
  ~ (exists e, hexToUint8Array "abc" = Throws e).
Proof.
  split; [exists 1; reflexivity |]. split; [reflexivity |].
  intros [e He]. discriminate He.
Qed.

(** C8, amended.  The decoder keeps exactly the hexadecimal digits of its
    input, in order; for every input (no longer than a JavaScript string can
    be) it returns, without throwing, as many octets as there are whole pairs
    of digits, octet [i] being the value of digits [2i] and [2i+1].  A last
    unpaired digit is ignored. *)
Theorem hexToUint8Array_pairs (hex : string) :
  (Z.of_nat (String.length hex) <= 2 ^ 53 - 1)%Z ->
  exists cleanHex bytes,
    list_ascii_of_string cleanHex = List.filter is_hex_digit (list_ascii_of_string hex) /\
    hexToUint8Array hex = Returns bytes /\
    length bytes = String.length cleanHex / 2 /\
    forall i, i < String.length cleanHex / 2 ->
      exists d1 d2 v1 v2 b,
        String.get (2 * i) cleanHex = Some d1 /\
        String.get (2 * i + 1) cleanHex = Some d2 /\
        hex_digit_value d1 = Some v1 /\
        hex_digit_value d2 = Some v2 /\
        bytes !! i = Some b /\
        Byte.to_N b = (16 * v1 + v2)%N.
Proof.
  intros Hlen. pose proof (replace_non_hex_length hex) as Hle.
  set (cleanHex := replace_non_hex hex) in *.
  exists cleanHex, (hex_loop cleanHex 0 (repeat x00 (String.length cleanHex / 2))).
  split; [apply replace_non_hex_filter |].
  split; [unfold hexToUint8Array; fold cleanHex;
          rewrite new_Uint8Array_half by lia; reflexivity |].
  split; [rewrite hex_loop_length; apply repeat_length |].
  intros i Hi.
  assert (H2 : 2 * i + 1 < String.length cleanHex).
  { pose proof (Nat.div_mod_eq (String.length cleanHex) 2) as E.
    pose proof (Nat.mod_upper_bound (String.length cleanHex) 2). lia. }
  destruct (get_lt cleanHex (2 * i)) as [d1 G1]; [lia |].
  destruct (get_lt cleanHex (2 * i + 1)) as [d2 G2]; [lia |].
  pose proof (replace_non_hex_get hex _ _ G1) as D1.
  pose proof (replace_non_hex_get hex _ _ G2) as D2.
  destruct (hex_digit_value_digit d1 D1) as (v1 & V1 & L1).
  destruct (hex_digit_value_digit d2 D2) as (v2 & V2 & L2).
  exists d1, d2, v1, v2, (parse_pair cleanHex i).
  repeat split; try assumption.
  - rewrite hex_loop_lookup by (exists 0; lia).
    rewrite repeat_length. case_decide; [reflexivity | lia].
  - unfold parse_pair. rewrite (substr_two cleanHex (2 * i) d1 d2); try assumption.
    + by apply ToUint8_pair.
    + replace (Datatypes.S (2 * i)) with (2 * i + 1) by lia. assumption.
Qed.

Lemma hexToUint8Array_pairs_witness :
  exists cleanHex bytes,
    list_ascii_of_string cleanHex
      = List.filter is_hex_digit (list_ascii_of_string "0xAB, 0f:7") /\
    hexToUint8Array "0xAB, 0f:7" = Returns bytes /\
    length bytes = String.length cleanHex / 2 /\
    forall i, i < String.length cleanHex / 2 ->
      exists d1 d2 v1 v2 b,
        String.get (2 * i) cleanHex = Some d1 /\
        String.get (2 * i + 1) cleanHex = Some d2 /\
        hex_digit_value d1 = Some v1 /\
        hex_digit_value d2 = Some v2 /\
        bytes !! i = Some b /\
        Byte.to_N b = (16 * v1 + v2)%N.
Proof. apply (hexToUint8Array_pairs "0xAB, 0f:7"). vm_compute. discriminate. Defined.

(** ** The SDK loader *)

(** C10.  With the global present the promise is fulfilled at once and the
    page is left as it was; and whatever the page was before a first call,
    once the script of that call has run and its [onload] has fulfilled the
    promise, a second call is fulfilled at once and [document.head] has the
    children the first call left. *)
Theorem loadSDKFromCDN_idempotent :
  (forall head,
     Loader.loadSDKFromCDN (Loader.mkWindow true head)
       = (Loader.Fulfilled, Loader.mkWindow true head)) /\
  (forall w,
     let w1 := snd (Loader.loadSDKFromCDN w) in
     let w2 := Loader.script_executes w1 in
     Loader.script_onload w2 = Loader.Fulfilled /\
     Loader.loadSDKFromCDN w2 = (Loader.Fulfilled, w2) /\
     Loader.head (snd (Loader.loadSDKFromCDN w2)) = Loader.head w1).
Proof.
  split; [reflexivity |].
  intros w. repeat split.
Qed.

(** ** Application statistics *)

Lemma step_counters (s : App.State) (e : App.Event) :
  let before := App.stats s in
  let after := App.stats (App.step s e) in
  match e with
  | App.StatsUpdate =>
      signaturesCreated after = (signaturesCreated before + 1)%N /\
      verifications after = (verifications before + 1)%N
  | _ =>
      signaturesCreated after = signaturesCreated before /\
      verifications after = verifications before
  end.
Proof.
  destruct e as [| k t | | ke km]; cbn; try (split; reflexivity).
  - destruct t; split; reflexivity.
  - unfold App.handleKeysRotated.
    destruct (truthy ke), (truthy km); split; reflexivity.
Qed.

Lemma counters_equal_preserved (events : list App.Event) (s : App.State) :
  signaturesCreated (App.stats s) = verifications (App.stats s) ->
  signaturesCreated (App.stats (fold_left App.step events s))
    = verifications (App.stats (fold_left App.step events s)).
Proof.
  revert s; induction events as [|e events IH]; intros s Hs; [exact Hs |].
  cbn [fold_left]. apply IH.
  pose proof (step_counters s e) as H. cbn zeta in H.
  destruct e; destruct H as [-> ->]; congruence.
Qed.

(** C9.  Both counters start at 0; [handleStatsUpdate] adds exactly 1 to each
    and touches nothing else; [handleKeyCreated] and [handleKeysRotated] leave
    both as they were; so in every state the application can reach the two
    counters are equal. *)
Theorem signaturesCreated_eq_verifications :
  (signaturesCreated (App.stats App.initial) = 0%N /\
   verifications (App.stats App.initial) = 0%N) /\
  (forall s,
     let s' := App.handleStatsUpdate s in
     signaturesCreated (App.stats s') = (signaturesCreated (App.stats s) + 1)%N /\
     verifications (App.stats s') = (verifications (App.stats s) + 1)%N /\
     keysCreated (App.stats s') = keysCreated (App.stats s) /\
     App.ecdsaKeyId s' = App.ecdsaKeyId s /\ App.mldsaKeyId s' = App.mldsaKeyId s) /\
  (forall s k t,
     signaturesCreated (App.stats (App.handleKeyCreated k t s))
       = signaturesCreated (App.stats s) /\
     verifications (App.stats (App.handleKeyCreated k t s)) = verifications (App.stats s)) /\
  (forall s ke km,
     signaturesCreated (App.stats (App.handleKeysRotated ke km s))
       = signaturesCreated (App.stats s) /\
     verifications (App.stats (App.handleKeysRotated ke km s))
       = verifications (App.stats s)) /\
  (forall events,
     signaturesCreated (App.stats (App.run events))
       = verifications (App.stats (App.run events))).
Proof.
  split; [split; reflexivity |].
  split; [intros s; repeat split |].
  split; [intros s k t; exact (step_counters s (App.KeyCreated k t)) |].
  split; [intros s ke km; exact (step_counters s (App.KeysRotated ke km)) |].
  intros events. apply counters_equal_preserved. reflexivity.
Qed.

(** ** Hybrid signing *)

Tactic Notation "world_fields" :=
  cbn [logs component appState sdkState effects fst snd].
Tactic Notation "world_fields" "in" hyp(H) :=
  cbn [logs component appState sdkState effects fst snd] in H.

(** One step of running a handler by hand: decide the next branch condition,
    or take the next SDK call with each of its outcomes. *)
Ltac settle_step :=
  match goal with
  | |- context [if ?c then _ else _] =>
      lazymatch c with
      | context [createKey] => fail
      | context [signWithKey] => fail
      | context [verifySignature] => fail
      | context [listKeysForAgent] => fail
      | _ => destruct c
      end
  | |- context [createKey ?s ?a ?u ?st] =>
      destruct (createKey s a u st) as [[?|?] ?]
  | |- context [signWithKey ?s ?k ?m ?st] =>
      destruct (signWithKey s k m st) as [[?|?] ?]
  | |- context [verifySignature ?s ?k ?m ?g ?st] =>
      destruct (verifySignature s k m g st) as [[[]|?] ?]
  | |- context [listKeysForAgent ?s ?a ?o ?st] =>
      destruct (listKeysForAgent s a o st) as [[?|?] ?]
  end;
  cbv beta iota; cbn [logs component appState sdkState effects fst snd].

Ltac run_handler :=
  cbv [mbind mret Handler_bind Handler_ret try_catch_finally read setLogs addLog
       setComponent sdk_call sdk_createKey sdk_signWithKey sdk_verifySignature
       sdk_listKeysForAgent callback onKeyCreated onStatsUpdate onKeysRotated
       catch_log rejection];
  cbn [logs component appState sdkState effects fst snd].

(** C7.  [handleSignWithBoth] signs with the ECDSA key first and with the
    ML-DSA key second, one after the other: the second call is made on the SDK
    state the first call left when it settled.  When the first call rejects,
    it is the only SDK call made, so nothing is signed after it; and
    [onStatsUpdate] follows only when both calls have succeeded. *)
Theorem handleSignWithBoth_sequential {S : Type} (sdk : KeySDK S)
    (w : World S SigningSection.State) (k1 k2 : string) :
  App.sdk (appState w) = true ->
  App.ecdsaKeyId (appState w) = Some k1 -> truthy (Some k1) = true ->
  App.mldsaKeyId (appState w) = Some k2 -> truthy (Some k2) = true ->
  let m := SigningSection.hybrid_message in
  let w' := snd (SigningSection.handleSignWithBoth sdk w) in
  let first := signWithKey sdk k1 m (sdkState w) in
  match fst first with
  | Throws e1 =>
      effects w' = effects w ++ [SdkCall (SignWithKey k1 m) (Some e1)] /\
      sdkState w' = snd first
  | Returns _ =>
      let second := signWithKey sdk k2 m (snd first) in
      effects w' =
        effects w ++
        [SdkCall (SignWithKey k1 m) None;
         SdkCall (SignWithKey k2 m) (rejection (fst second))]
        ++ match fst second with Returns _ => [OnStatsUpdate] | Throws _ => [] end /\
      sdkState w' = snd second
  end.
Proof.
  intros Hsdk He Te Hm Tm m w' first.
  subst w'. unfold SigningSection.handleSignWithBoth.
  run_handler. rewrite Hsdk, He, Hm, Te, Tm. cbn [negb orb default].
  run_handler. subst first m. change (id k1) with k1. change (id k2) with k2.
  destruct (signWithKey sdk k1 _ (sdkState w)) as [[sig1|e1] st1]; world_fields.
  - destruct (signWithKey sdk k2 _ st1) as [[sig2|e2] st2]; world_fields;
      (split; [rewrite <- ?app_assoc; reflexivity | reflexivity]).
  - split; reflexivity.
Qed.

Lemma handleSignWithBoth_sequential_witness :
  let w := Demo.deactivated "key-1"
             (Demo.enter SigningSection.initial (Demo.with_both_keys ml_dsa_65)) in
  let m := SigningSection.hybrid_message in
  effects (snd (SigningSection.handleSignWithBoth Demo.the_sdk w)) =
    effects w ++ [SdkCall (SignWithKey "key-0" m) None;
                  SdkCall (SignWithKey "key-1" m) (Some "InactiveKey")].
Proof.
  intros w m.
  pose proof (handleSignWithBoth_sequential Demo.the_sdk w "key-0" "key-1"
                eq_refl eq_refl eq_refl eq_refl eq_refl) as H.
  vm_compute in H. vm_compute. exact (proj1 H).
Defined.

(** One signing block of [handleSignMessage]: it touches neither the
    component's cells nor the application, invokes no callback, and when it
    completes none of its SDK calls has rejected. *)
Lemma sign_and_verify_with_effects {S : Type} (sdk : KeySDK S)
    (name announce k : string) (m : Uint8Array)
    (w : World S CustomMessageSection.State) :
  let r := CustomMessageSection.sign_and_verify_with sdk name announce k m w in
  component (snd r) = component w /\
  appState (snd r) = appState w /\
  exists new,
    effects (snd r) = effects w ++ new /\
    ~ In OnStatsUpdate new /\
    match fst r with
    | Returns _ => forall c e, ~ In (SdkCall c (Some e)) new
    | Throws _ => True
    end.
Proof.
  unfold CustomMessageSection.sign_and_verify_with. run_handler.
  destruct (signWithKey sdk k m (sdkState w)) as [[sg|e1] st1]; world_fields.
  - destruct (verifySignature sdk k m sg st1) as [[[]|e2] st2]; world_fields.
    all: repeat split.
    all: eexists; split; [rewrite <- ?app_assoc; reflexivity |].
    all: cbn [app In]; split; [intuition discriminate |].
    all: try exact I; intros c e; intuition discriminate.
  - repeat split. eexists; split; [reflexivity |].
    cbn [In]; split; [intuition discriminate | exact I].
Qed.

(** C3.  Whenever a sign call made by [handleSignMessage] rejects, the
    [signatures] cell is left empty, [onStatsUpdate] is not invoked and the
    application state is as it was. *)
Theorem handleSignMessage_all_or_nothing {S : Type} (sdk : KeySDK S)
    (w : World S CustomMessageSection.State)
    (k : string) (m : Uint8Array) (e : string) (new : list Effect) :
  let w' := snd (CustomMessageSection.handleSignMessage sdk w) in
  effects w' = effects w ++ new ->
  In (SdkCall (SignWithKey k m) (Some e)) new ->
  CustomMessageSection.signatures (component w') = CustomMessageSection.no_signatures /\
  ~ In OnStatsUpdate new /\
  appState w' = appState w.
Proof.
  intros w'. subst w'. unfold CustomMessageSection.handleSignMessage.
  run_handler.
  destruct (negb (App.sdk (appState w)) || trim_is_empty _).
  { world_fields. intros Hnew Hin. exfalso.
    rewrite <- (app_nil_r (effects w)) in Hnew at 1.
    apply app_inv_head in Hnew. subst new. destruct Hin. }
  (* the ECDSA block *)
  destruct (_ && truthy (App.ecdsaKeyId (appState w))); cbv beta iota.
  - match goal with
    | |- context [CustomMessageSection.sign_and_verify_with sdk ?n ?a ?k1 ?m1 ?w1] =>
        pose proof (sign_and_verify_with_effects sdk n a k1 m1 w1) as H1;
        destruct (CustomMessageSection.sign_and_verify_with sdk n a k1 m1 w1)
          as [[sg1|e1] w1']
    end; cbn [fst snd] in H1; world_fields in H1;
      destruct H1 as (Hc1 & Ha1 & new1 & He1 & Hs1 & Hr1); world_fields.
    + (* ECDSA signed; the ML-DSA block *)
      destruct (_ && truthy (App.mldsaKeyId (appState w))); cbv beta iota.
      * match goal with
        | |- context [CustomMessageSection.sign_and_verify_with sdk ?n ?a ?k2 ?m2 ?w2] =>
            pose proof (sign_and_verify_with_effects sdk n a k2 m2 w2) as H2;
            destruct (CustomMessageSection.sign_and_verify_with sdk n a k2 m2 w2)
              as [[sg2|e2] w2']
        end; cbn [fst snd] in H2; world_fields in H2;
          destruct H2 as (Hc2 & Ha2 & new2 & He2 & Hs2 & Hr2); world_fields.
        -- rewrite He2, He1, <- !app_assoc. intros Hnew Hin. exfalso.
           apply app_inv_head in Hnew. subst new.
           rewrite !in_app_iff in Hin. cbn [In] in Hin.
           destruct Hin as [Hin | [Hin | [Hin | []]]];
             [exact (Hr1 _ _ Hin) | exact (Hr2 _ _ Hin) | discriminate Hin].
        -- rewrite He2, He1, Hc2, Hc1, Ha2, Ha1, <- !app_assoc. intros Hnew Hin.
           apply app_inv_head in Hnew. subst new.
           split; [reflexivity |]. split; [| reflexivity].
           rewrite in_app_iff. tauto.
      * world_fields. rewrite He1, <- !app_assoc. intros Hnew Hin. exfalso.
        apply app_inv_head in Hnew. subst new.
        rewrite !in_app_iff in Hin. cbn [In] in Hin.
        destruct Hin as [Hin | [Hin | []]]; [exact (Hr1 _ _ Hin) | discriminate Hin].
    + rewrite He1, Hc1, Ha1. intros Hnew Hin.
      apply app_inv_head in Hnew. subst new.
      split; [reflexivity |]. split; [assumption | reflexivity].
  - (* no ECDSA block; the ML-DSA block *)
    world_fields.
    destruct (_ && truthy (App.mldsaKeyId (appState w))); cbv beta iota.
    + match goal with
      | |- context [CustomMessageSection.sign_and_verify_with sdk ?n ?a ?k2 ?m2 ?w2] =>
          pose proof (sign_and_verify_with_effects sdk n a k2 m2 w2) as H2;
          destruct (CustomMessageSection.sign_and_verify_with sdk n a k2 m2 w2)
            as [[sg2|e2] w2']
      end; cbn [fst snd] in H2; world_fields in H2;
        destruct H2 as (Hc2 & Ha2 & new2 & He2 & Hs2 & Hr2); world_fields.
      * rewrite He2, <- !app_assoc. intros Hnew Hin. exfalso.
        apply app_inv_head in Hnew. subst new.
        rewrite !in_app_iff in Hin. cbn [In] in Hin.
        destruct Hin as [Hin | [Hin | []]]; [exact (Hr2 _ _ Hin) | discriminate Hin].
      * rewrite He2, Hc2, Ha2. intros Hnew Hin.
        apply app_inv_head in Hnew. subst new.
        split; [reflexivity |]. split; [assumption | reflexivity].
    + world_fields. intros Hnew Hin. exfalso.
      apply app_inv_head in Hnew. subst new.
      destruct Hin as [Hin | []]. discriminate Hin.
Qed.

Lemma handleSignMessage_all_or_nothing_witness :
  let w := Demo.deactivated "key-1"
             (Demo.enter (CustomMessageSection.setMessage "hi" CustomMessageSection.initial)
                (Demo.with_both_keys ml_dsa_65)) in
  let w' := snd (CustomMessageSection.handleSignMessage Demo.the_sdk w) in
  let new := drop (length (effects w)) (effects w') in
  effects w' = effects w ++ new /\
  In (SdkCall (SignWithKey "key-1" (TextEncoder_encode "hi")) (Some "InactiveKey"%string)) new /\
  CustomMessageSection.signatures (component w') = CustomMessageSection.no_signatures /\
  ~ In OnStatsUpdate new /\
  appState w' = appState w.
Proof.
  intros w w' new.
  assert (Hnew : effects w' = effects w ++ new) by (vm_compute; reflexivity).
  assert (Hin : In (SdkCall (SignWithKey "key-1" (TextEncoder_encode "hi"))
                      (Some "InactiveKey"%string)) new)
    by (vm_compute; right; right; left; reflexivity).
  split; [exact Hnew |]. split; [exact Hin |].
  exact (handleSignMessage_all_or_nothing Demo.the_sdk w _ _ _ new Hnew Hin).
Defined.

(** ** The crypto profile *)

Lemma activeKeys_filter (keys : list KeyRecord) :
  KeyManagementSection.activeKeys keys = filter (fun k => status (meta k) = active) keys.
Proof.
  unfold KeyManagementSection.activeKeys.
  induction keys as [|k keys IH]; [reflexivity |].
  cbn [List.filter]. rewrite filter_cons, IH.
  destruct (decide (status (meta k) = active)) as [E|E].
  - rewrite bool_decide_eq_true_2 by exact E. reflexivity.
  - rewrite bool_decide_eq_false_2 by exact E. reflexivity.
Qed.

(** C5.  With the SDK present, [handleGetProfile] makes one SDK call, the
    listing of the agent's active keys, and invokes no callback: the
    application state, statistics included, is as it was and the SDK is in
    the state the listing left it in.  When the listing succeeds, the count
    written to the log is the number of listed records whose status is
    [active]. *)
Theorem handleGetProfile_read_only {S : Type} (sdk : KeySDK S)
    (w : World S KeyManagementSection.State) :
  App.sdk (appState w) = true ->
  let w' := snd (KeyManagementSection.handleGetProfile sdk w) in
  let listing := listKeysForAgent sdk "BrowserAgent" (Some true) (sdkState w) in
  effects w' =
    effects w ++ [SdkCall (ListKeysForAgent "BrowserAgent" (Some true))
                    (rejection (fst listing))] /\
  appState w' = appState w /\
  sdkState w' = snd listing /\
  match fst listing with
  | Returns keys =>
      let activeCount := length (filter (fun k => status (meta k) = active) keys) in
      In (mkLogEntry ("   Total active keys: " ++ show activeCount)%string info) (logs w')
  | Throws e => logs w' = [mkLogEntry "Getting key profile..." info;
                           mkLogEntry ("Error: " ++ e)%string error]
  end.
Proof.
  intros Hsdk w' listing. subst w' listing.
  unfold KeyManagementSection.handleGetProfile.
  run_handler. rewrite Hsdk. cbn [negb]. run_handler.
  destruct (listKeysForAgent sdk _ _ (sdkState w)) as [[keys|e] st]; world_fields.
  - rewrite <- activeKeys_filter.
    repeat settle_step; (repeat split; []);
      rewrite <- ?app_assoc; cbn [app]; right; right; left; reflexivity.
  - repeat split.
Qed.

Lemma handleGetProfile_read_only_witness :
  let w := Demo.enter KeyManagementSection.initial (Demo.with_both_keys ml_dsa_87) in
  let w' := snd (KeyManagementSection.handleGetProfile Demo.the_sdk w) in
  App.sdk (appState w) = true /\
  effects w' = effects w ++ [SdkCall (ListKeysForAgent "BrowserAgent" (Some true)) None] /\
  appState w' = appState w /\
  sdkState w' = sdkState w /\
  In (mkLogEntry "   Total active keys: 2" info) (logs w').
Proof.
  intros w w'.
  pose proof (handleGetProfile_read_only Demo.the_sdk w eq_refl) as Hprofile.
  split; [reflexivity |].
  vm_compute in Hprofile. vm_compute. exact Hprofile.
Defined.

(** ** Key rotation *)

Ltac all_effects :=
  repeat first [apply List.Forall_nil | apply List.Forall_cons; [cbn; auto |]].

Section Rotation.
Context {S : Type} (sdk : KeySDK S).

(** Whatever [createKey] preserves, a rotation preserves; and all it does
    to the SDK is call [createKey]. *)
Lemma handleRotateKeys_frame (R : S -> S -> Prop) (w : World S KeyManagementSection.State) :
  (forall st, R st st) ->
  (forall st1 st2 st3, R st1 st2 -> R st2 st3 -> R st1 st3) ->
  (forall agentId suite st, R st (snd (createKey sdk agentId suite st))) ->
  let w' := snd (KeyManagementSection.handleRotateKeys sdk w) in
  R (sdkState w) (sdkState w') /\
  exists new, effects w' = effects w ++ new /\
              Forall rotation_effect new /\ Forall rotation_suite new.
Proof.
  intros Hrefl Htrans Hcreate w'. subst w'.
  unfold KeyManagementSection.handleRotateKeys. run_handler.
  destruct (App.sdk (appState w)); cbn [negb]; run_handler.
  2:{ split; [apply Hrefl |]. exists []. rewrite app_nil_r. split; [reflexivity |]. split; all_effects. }
  destruct (truthy (App.ecdsaKeyId (appState w))); cbv beta iota; world_fields.
  - pose proof (Hcreate "BrowserAgent"%string bsv_ecdsa_secp256k1 (sdkState w)) as H1.
    destruct (createKey sdk _ bsv_ecdsa_secp256k1 (sdkState w)) as [[r1|e1] st1];
      cbn [snd] in H1; world_fields.
    + destruct (truthy (App.mldsaKeyId (appState w))); cbv beta iota; world_fields.
      * pose proof (Hcreate "BrowserAgent"%string ml_dsa_65 st1) as H2.
        destruct (createKey sdk _ ml_dsa_65 st1) as [[r2|e2] st2];
          cbn [snd] in H2; unfold forEach; cbn [forEach_from app]; run_handler.
        all: split; [eapply Htrans; eassumption |].
        all: eexists; split; [rewrite <- ?app_assoc; reflexivity |].
        all: split; all_effects.
      * unfold forEach; cbn [forEach_from app]; run_handler.
        split; [assumption |].
        eexists; split; [rewrite <- ?app_assoc; reflexivity |].
        split; all_effects.
    + split; [assumption |].
      eexists; split; [reflexivity |]. split; all_effects.
  - destruct (truthy (App.mldsaKeyId (appState w))); cbv beta iota; world_fields.
    + pose proof (Hcreate "BrowserAgent"%string ml_dsa_65 (sdkState w)) as H2.
      destruct (createKey sdk _ ml_dsa_65 (sdkState w)) as [[r2|e2] st2];
        cbn [snd] in H2; unfold forEach; cbn [forEach_from app]; run_handler.
      all: split; [assumption |].
      all: eexists; split; [rewrite <- ?app_assoc; reflexivity |].
      all: split; all_effects.
    + unfold forEach; cbn [forEach_from app]; run_handler.
      split; [apply Hrefl |].
      eexists; split; [rewrite <- ?app_assoc; reflexivity |].
      split; all_effects.
Qed.

End Rotation.

Section KeyStoreFacts.
Context {H : Type} (P : KeyStore.Provider H).
Import KeyStore.

(** [createKey] adds at most one entry, after the ones the store holds. *)
Lemma createKey_entries (agentId : string) (suite : SignatureSuite) (st : Store H) :
  entries st `prefix_of` entries (snd (createKey P agentId suite st)).
Proof.
  unfold createKey.
  destruct (describe P suite); [| reflexivity].
  destruct (generateKeyPair P suite (issued st)) as [[pk sk]|e]; [| reflexivity].
  cbn. by eexists.
Qed.

Lemma lookup_key_prefix (id : string) (st st' : Store H) (e : Entry H) :
  entries st `prefix_of` entries st' ->
  lookup_key id st = Some e -> lookup_key id st' = Some e.
Proof.
  intros [created E]. unfold lookup_key. rewrite E. clear E.
  induction (entries st) as [|x l IH]; [discriminate |].
  cbn. destruct (has_id id x); [trivial | exact IH].
Qed.

Lemma listKeysForAgent_pure (agentId : string) (activeOnly : option bool) (st : Store H) :
  snd (listKeysForAgent agentId activeOnly st) = st.
Proof. reflexivity. Qed.

End KeyStoreFacts.

(** C6.  Run against the key store, a rotation leaves every entry the store
    held where it was and as it was (record, status, owner, private handle):
    the entries before are a prefix of the entries after, and looking up a key
    that existed gives the same entry.  The only SDK calls a rotation makes
    are [createKey] calls. *)
Theorem handleRotateKeys_keeps_predecessors {H : Type} (P : KeyStore.Provider H)
    (w : World (KeyStore.Store H) KeyManagementSection.State) :
  let w' := snd (KeyManagementSection.handleRotateKeys (KeyStore.sdk P) w) in
  KeyStore.entries (sdkState w) `prefix_of` KeyStore.entries (sdkState w') /\
  (forall id,
     KeyStore.lookup_key id (sdkState w) = None \/
     KeyStore.lookup_key id (sdkState w') = KeyStore.lookup_key id (sdkState w)) /\
  exists new, effects w' = effects w ++ new /\ Forall rotation_effect new.
Proof.
  intros w'.
  destruct (handleRotateKeys_frame (KeyStore.sdk P)
              (fun st st' => KeyStore.entries st `prefix_of` KeyStore.entries st') w)
    as (Hpre & new & Hnew & Hall & _).
  - reflexivity.
  - intros st1 st2 st3 H12 H23. by etrans.
  - intros agentId suite st. apply createKey_entries.
  - fold w' in Hpre, Hnew. split; [exact Hpre |]. split; [| by exists new].
    intros id. destruct (KeyStore.lookup_key id (sdkState w)) as [e|] eqn:E; [right | by left].
    by apply (lookup_key_prefix id (sdkState w)).
Qed.

(** C2, at the failing input.  The agent's only key is an ML-DSA-44 key
    created through [handleCreateMLDSA]; the rotation then creates exactly one
    new key, of suite ML-DSA-65. *)
Theorem handleRotateKeys_replaces_variant :
  let summary (e : KeyStore.Entry byte) :=
    (keyId (meta (KeyStore.record e)), suiteId (meta (KeyStore.record e)),
     status (meta (KeyStore.record e))) in
  let w1 := snd (KeyCreationSection.handleCreateMLDSA Demo.the_sdk
                   (Demo.start (KeyCreationSection.setMldsaVariant ml_dsa_44
                                  KeyCreationSection.initial))) in
  let w2 := snd (KeyManagementSection.handleRotateKeys Demo.the_sdk
                   (Demo.enter KeyManagementSection.initial w1)) in
  map summary (KeyStore.entries (sdkState w1)) = [("key-0"%string, ml_dsa_44, active)] /\
  App.mldsaKeyId (appState w1) = Some "key-0"%string /\
  App.ecdsaKeyId (appState w1) = None /\
  map summary (KeyStore.entries (sdkState w2))
    = [("key-0"%string, ml_dsa_44, active); ("key-1"%string, ml_dsa_65, active)] /\
  effects w2 = effects w1 ++ [SdkCall (CreateKey "BrowserAgent" ml_dsa_65) None;
                              OnKeysRotated None (Some "key-1"%string);
                              OnStatsUpdate].
Proof. vm_compute. repeat split. Qed.

(** Whatever the SDK and the keys held, a rotation asks for no suite other
    than [bsv-ecdsa-secp256k1] and [ml-dsa-65]. *)
Lemma handleRotateKeys_suites {S : Type} (sdk : KeySDK S)
    (w : World S KeyManagementSection.State) :
  exists new,
    effects (snd (KeyManagementSection.handleRotateKeys sdk w)) = effects w ++ new /\
    Forall rotation_suite new.
Proof.
  destruct (handleRotateKeys_frame sdk (fun _ _ => True) w)
    as (_ & new & Hnew & _ & Hall); auto.
  by exists new.
Qed.

(** ** Signing and verifying with one key *)

Section SigningEngine.
Context {H : Type} (P : KeyStore.Provider H).
Import KeyStore.

Lemma apply_entry_ok (st : Store H) (op : Op) :
  Forall (entry_ok P) (entries st) -> Forall (entry_ok P) (entries (apply P st op)).
Proof.
  intros Hst. destruct op as [agentId suite | id | bytes suite]; cbn [apply].
  - unfold createKey. destruct (describe P suite) as [d|] eqn:D; [| exact Hst].
    destruct (generateKeyPair P suite (issued st)) as [[pk sk]|e] eqn:G; [| exact Hst].
    cbn. apply Forall_app; split; [exact Hst |].
    apply List.Forall_cons; [| apply List.Forall_nil].
    split; cbn; [rewrite D; by eexists |].
    intros sk' [= <-]. by exists (issued st).
  - unfold deactivate. destruct (lookup_key id st) as [found|]; [| exact Hst].
    cbn. apply Forall_fmap. eapply Forall_impl; [exact Hst |].
    intros x Hx. cbn. destruct (has_id id x); exact Hx.
  - unfold importPublicKey. destruct (describe P suite) as [d|] eqn:D; [| exact Hst].
    destruct (negb (length bytes =? publicKeyLength d)); [exact Hst |].
    cbn. apply Forall_app; split; [exact Hst |].
    apply List.Forall_cons; [| apply List.Forall_nil].
    split; cbn; [rewrite D; by eexists | discriminate].
Qed.

Lemma run_entry_ok (ops : list Op) : Forall (entry_ok P) (entries (run P ops)).
Proof.
  unfold run. generalize (@List.Forall_nil _ (entry_ok P) : Forall _ (entries empty)).
  generalize (@empty H). induction ops as [|op ops IH]; intros st Hst; [exact Hst |].
  cbn [fold_left]. apply IH. by apply apply_entry_ok.
Qed.

Lemma lookup_key_In (id : string) (st : Store H) (e : Entry H) :
  lookup_key id st = Some e -> In e (entries st).
Proof. intros E. destruct (List.find_some _ _ E) as [Hin _]. exact Hin. Qed.

(** C4.  In a store reached by creating, importing and deactivating keys,
    over a provider whose [verify] accepts what its [sign] produces: for an
    active key [k] that owns a private handle, once the suite has signed
    [m] with a signature of the suite's declared length, [signWithKey]
    returns that signature and [verifySignature] with the same key and
    message returns [true]. *)
Theorem verifySignature_signWithKey (ops : list Op) (k : string) (m : Uint8Array)
    (e : Entry H) (sk : H) (signature : Uint8Array) :
  provider_correct P ->
  let st := run P ops in
  lookup_key k st = Some e ->
  status (meta (record e)) = active ->
  privateHandle e = Some sk ->
  sign P (suiteId (meta (record e))) sk m = Returns signature ->
  (forall d, describe P (suiteId (meta (record e))) = Some d ->
             length signature = signatureLength d) ->
  signWithKey P k m st = (Returns signature, st) /\
  verifySignature P k m signature st = (Returns true, st).
Proof.
  intros Hcorrect st Hk Hactive Hsk Hsign Hlen.
  pose proof (run_entry_ok ops) as Hok. fold st in Hok.
  rewrite List.Forall_forall in Hok.
  destruct (Hok e (lookup_key_In k st e Hk)) as [[d Hd] Hgen].
  destruct (Hgen sk Hsk) as [n Hn].
  specialize (Hlen d Hd).
  unfold signWithKey, verifySignature.
  rewrite Hk, Hsk, Hactive, Hd, Hsign, Hlen, Nat.eqb_refl.
  split; [reflexivity |].
  by rewrite (Hcorrect _ _ _ _ _ _ Hn Hsign).
Qed.

End SigningEngine.

Lemma Demo_provider_correct : KeyStore.provider_correct Demo.provider.
Proof.
  intros suite n pk sk m sg Hg Hs. cbn in Hg, Hs |- *.
  unfold Demo.generateKeyPair in Hg. unfold Demo.sign in Hs.
  injection Hg as <- <-. injection Hs as <-.
  unfold Demo.verify. apply bool_decide_eq_true_2.
  f_equal. destruct suite; reflexivity.
Qed.

Lemma verifySignature_signWithKey_witness :
  let st := KeyStore.run Demo.provider
              [KeyStore.OpCreateKey "BrowserAgent" bsv_ecdsa_secp256k1] in
  let m := SigningSection.hello_message in
  exists signature,
    KeyStore.signWithKey Demo.provider "key-0" m st = (Returns signature, st) /\
    KeyStore.verifySignature Demo.provider "key-0" m signature st = (Returns true, st).
Proof.
  intros st m. eexists.
  eapply (verifySignature_signWithKey Demo.provider
            [KeyStore.OpCreateKey "BrowserAgent" bsv_ecdsa_secp256k1] "key-0" m).
  - exact Demo_provider_correct.
  - reflexivity.
  - reflexivity.
  - reflexivity.
  - reflexivity.
  - intros d [= <-]. reflexivity.
Defined.

(** * Further properties of the sources *)

(** ** The codec *)

Lemma encode_byte_lower (b : byte) :
  exists c1 c2,
    encode_byte b = String c1 (String c2 "") /\
    is_lower_hex_digit c1 = true /\ is_lower_hex_digit c2 = true.
Proof. destruct b; do 2 eexists; repeat split; reflexivity. Qed.

(** X1.  [arrayToHex] prints two characters for each of the first [length]
    octets of the array and nothing else, and every character is one of
    [0-9a-f]. *)
Theorem arrayToHex_shape (arr : Uint8Array) (len : nat) :
  String.length (arrayToHex arr len) = 2 * Nat.min len (length arr) /\
  Forall (fun c => is_lower_hex_digit c = true) (list_ascii_of_string (arrayToHex arr len)).
Proof.
  unfold arrayToHex. split.
  - rewrite length_encoded, length_firstn. reflexivity.
  - induction (firstn len arr) as [|b l IH]; [constructor |].
    destruct (encode_byte_lower b) as (c1 & c2 & E & H1 & H2).
    cbn [map join fold_right]. rewrite E. cbn.
    apply List.Forall_cons; [exact H1 |]. apply List.Forall_cons; [exact H2 |]. exact IH.
Qed.

(** X2.  An array no longer than the [length] given to [arrayToHex] comes
    back whole from [hexToUint8Array]. *)
Theorem arrayToHex_round_trip (arr : Uint8Array) (len : nat) :
  length arr <= len ->
  (Z.of_nat (2 * length arr) <= 2 ^ 53 - 1)%Z ->
  hexToUint8Array (arrayToHex arr len) = Returns arr.
Proof.
  intros Hlen Hbound. unfold arrayToHex.
  rewrite firstn_all2 by exact Hlen. by apply decode_encoded.
Qed.

Lemma arrayToHex_round_trip_witness :
  length [x00; x0f; xa0; xff] <= 32 /\
  hexToUint8Array (arrayToHex [x00; x0f; xa0; xff] 32) = Returns [x00; x0f; xa0; xff].
Proof.
  split; [cbn; lia |].
  apply (arrayToHex_round_trip [x00; x0f; xa0; xff] 32); [cbn; lia |].
  vm_compute. discriminate.
Defined.

Lemma hex_digit_value_None (c : ascii) :
  is_hex_digit c = false -> hex_digit_value c = None.
Proof.
  destruct c as [[] [] [] [] [] [] [] []]; vm_compute; intros H;
    try discriminate H; reflexivity.
Qed.

Lemma digit_values_cons (c : ascii) (s : string) :
  digit_values (String c s) =
    match hex_digit_value c with
    | Some v => v :: digit_values s
    | None => digit_values s
    end.
Proof. reflexivity. Qed.

Lemma digit_values_get (s : string) (i : nat) (d : ascii) :
  String.get i (replace_non_hex s) = Some d ->
  digit_values s !! i = hex_digit_value d.
Proof.
  revert i; induction s as [|c s IH]; intros i; [discriminate |].
  rewrite digit_values_cons. cbn [replace_non_hex].
  destruct (is_hex_digit c) eqn:Hc.
  - destruct (hex_digit_value_digit c Hc) as (v & Hv & _). rewrite Hv.
    destruct i as [|i]; cbn; [intros [= <-]; by rewrite Hv | apply IH].
  - rewrite (hex_digit_value_None c Hc). apply IH.
Qed.

Lemma length_digit_values (s : string) :
  length (digit_values s) = String.length (replace_non_hex s).
Proof.
  induction s as [|c s IH]; [reflexivity |].
  rewrite digit_values_cons. cbn [replace_non_hex].
  destruct (is_hex_digit c) eqn:Hc.
  - destruct (hex_digit_value_digit c Hc) as (v & Hv & _). rewrite Hv. cbn. by rewrite IH.
  - by rewrite (hex_digit_value_None c Hc).
Qed.

Lemma length_pair_up (values : list N) : length (pair_up values) = length values / 2.
Proof.
  induction values as [values IH] using (induction_ltof1 _ (@length N)).
  destruct values as [|a [|b rest]]; [reflexivity | reflexivity |].
  cbn [pair_up length]. rewrite IH by (unfold ltof; cbn; lia).
  replace (Datatypes.S (Datatypes.S (length rest))) with (length rest + 1 * 2) by lia.
  rewrite Nat.div_add by lia. lia.
Qed.

Lemma pair_up_lookup (values : list N) (j : nat) (a b : N) :
  values !! (2 * j) = Some a -> values !! (2 * j + 1) = Some b ->
  pair_up values !! j = Some (ToUint8 (Some (16 * a + b)%N)).
Proof.
  revert values; induction j as [|j IH]; intros values Ha Hb.
  - destruct values as [|x [|y rest]]; try discriminate.
    cbn in Ha, Hb. injection Ha as ->. injection Hb as ->. reflexivity.
  - replace (2 * Datatypes.S j) with (Datatypes.S (Datatypes.S (2 * j))) in Ha by lia.
    replace (2 * Datatypes.S j + 1) with (Datatypes.S (Datatypes.S (2 * j + 1))) in Hb by lia.
    destruct values as [|x [|y rest]]; try discriminate.
    cbn [pair_up]. exact (IH rest Ha Hb).
Qed.

(** The decoder in closed form: the octets of the digit values of the text. *)
Lemma hexToUint8Array_digit_values (hex : string) :
  (Z.of_nat (String.length hex) <= 2 ^ 53 - 1)%Z ->
  hexToUint8Array hex = Returns (pair_up (digit_values hex)).
Proof.
  intros Hlen. pose proof (replace_non_hex_length hex) as Hle.
  unfold hexToUint8Array. rewrite new_Uint8Array_half by lia.
  f_equal. apply list_eq; intros j.
  rewrite hex_loop_lookup by (exists 0; lia). rewrite repeat_length.
  set (cleanHex := replace_non_hex hex) in *.
  case_decide as Hc.
  - destruct Hc as (_ & _ & Hj).
    assert (H2 : 2 * j + 1 < String.length cleanHex).
    { pose proof (Nat.div_mod_eq (String.length cleanHex) 2).
      pose proof (Nat.mod_upper_bound (String.length cleanHex) 2). lia. }
    destruct (get_lt cleanHex (2 * j)) as [d1 G1]; [lia |].
    destruct (get_lt cleanHex (2 * j + 1)) as [d2 G2]; [lia |].
    pose proof (replace_non_hex_get hex _ _ G1) as D1.
    pose proof (replace_non_hex_get hex _ _ G2) as D2.
    destruct (hex_digit_value_digit d1 D1) as (v1 & V1 & _).
    destruct (hex_digit_value_digit d2 D2) as (v2 & V2 & _).
    rewrite (pair_up_lookup _ j v1 v2)
      by (erewrite digit_values_get by eassumption; assumption).
    f_equal. unfold parse_pair.
    rewrite (substr_two cleanHex (2 * j) d1 d2);
      [| assumption | by replace (Datatypes.S (2 * j)) with (2 * j + 1) by lia].
    unfold parseInt16. rewrite D1. cbn [parseInt16_from]. rewrite V1, V2.
    repeat f_equal; lia.
  - assert (Hj : String.length cleanHex / 2 <= j).
    { destruct (decide (j < String.length cleanHex / 2)) as [Hj|Hj]; [| lia].
      exfalso. apply Hc. split; [lia |]. split; [| exact Hj].
      pose proof (Nat.div_mod_eq (String.length cleanHex) 2). lia. }
    rewrite (lookup_ge_None_2 (repeat _ _)) by (rewrite repeat_length; lia).
    symmetry. apply lookup_ge_None_2.
    rewrite length_pair_up, length_digit_values. exact Hj.
Qed.

(** X3.  What [hexToUint8Array] returns depends on the values of the
    hexadecimal digits of the text only: two texts whose digits have the same
    values, whatever their case and whatever stands between them, decode to
    the same octets. *)
Theorem hexToUint8Array_same_digits (hex1 hex2 : string) :
  (Z.of_nat (String.length hex1) <= 2 ^ 53 - 1)%Z ->
  (Z.of_nat (String.length hex2) <= 2 ^ 53 - 1)%Z ->
  digit_values hex1 = digit_values hex2 ->
  hexToUint8Array hex1 = hexToUint8Array hex2.
Proof.
  intros H1 H2 E.
  rewrite !hexToUint8Array_digit_values by assumption. by rewrite E.
Qed.

Lemma hexToUint8Array_same_digits_witness :
  digit_values "DE:AD be ef" = digit_values "de-ad-BE-EF" /\
  hexToUint8Array "DE:AD be ef" = hexToUint8Array "de-ad-BE-EF".
Proof.
  split; [reflexivity |].
  apply (hexToUint8Array_same_digits "DE:AD be ef" "de-ad-BE-EF");
    [vm_compute; discriminate | vm_compute; discriminate | reflexivity].
Defined.

(** ** The loader before the script has run *)

(** X4.  As long as the global is absent, a call of [loadSDKFromCDN] does not
    notice the script an earlier call appended: [n] calls leave [n] copies of
    the script element in [document.head], and each of their promises is
    pending. *)
Theorem loadSDKFromCDN_appends_each_time (w : Loader.Window) (n : nat) :
  Loader.LumenKeys w = false ->
  Loader.head (load_times n w) = Loader.head w ++ repeat Loader.cdn_script n /\
  Loader.LumenKeys (load_times n w) = false /\
  fst (Loader.loadSDKFromCDN (load_times n w)) = Loader.Pending.
Proof.
  intros Hw. induction n as [|n (IHh & IHg & IHp)].
  - cbn. rewrite app_nil_r, Hw. unfold Loader.loadSDKFromCDN. rewrite Hw. by repeat split.
  - change (load_times (Datatypes.S n) w)
      with (snd (Loader.loadSDKFromCDN (load_times n w))).
    set (x := load_times n w) in *. clear IHp.
    unfold Loader.loadSDKFromCDN. rewrite IHg.
    cbn [snd fst Loader.head Loader.LumenKeys]. rewrite IHh.
    repeat split. rewrite <- app_assoc. f_equal.
    change [Loader.cdn_script] with (repeat Loader.cdn_script 1).
    rewrite <- repeat_app. f_equal. lia.
Qed.

Lemma loadSDKFromCDN_appends_each_time_witness :
  Loader.head (load_times 3 (Loader.mkWindow false []))
    = [Loader.cdn_script; Loader.cdn_script; Loader.cdn_script].
Proof.
  exact (proj1 (loadSDKFromCDN_appends_each_time (Loader.mkWindow false []) 3 eq_refl)).
Defined.

(** ** The application state along its events *)

Lemma keysCreated_step (s : App.State) (e : App.Event) :
  keysCreated (App.stats (App.step s e)) = (keysCreated (App.stats s) + keys_announced e)%N.
Proof.
  destruct e as [| k t | | ke km]; cbn.
  - lia.
  - destruct t; reflexivity.
  - lia.
  - unfold App.handleKeysRotated. destruct (truthy ke), (truthy km); cbn; lia.
Qed.

(** X5.  [keysCreated] counts the keys announced to [App]: one for each
    [handleKeyCreated], and one for each non-empty identifier passed to
    [handleKeysRotated]. *)
Theorem keysCreated_counts (events : list App.Event) :
  keysCreated (App.stats (App.run events))
    = fold_right N.add 0%N (map keys_announced events).
Proof.
  unfold App.run.
  assert (G : forall s, keysCreated (App.stats (fold_left App.step events s))
                = (keysCreated (App.stats s)
                   + fold_right N.add 0%N (map keys_announced events))%N).
  { induction events as [|e events IH]; intros s; cbn [fold_left map fold_right]; [lia |].
    rewrite IH, keysCreated_step. lia. }
  rewrite G. reflexivity.
Qed.

(** X6.  Nothing in [App] takes back what it has been given: once the SDK
    object or a key identifier is set, no later event resets it to [null]. *)
Theorem app_state_is_never_unset (events : list App.Event) (s : App.State) :
  let s' := fold_left App.step events s in
  (App.sdk s = true -> App.sdk s' = true) /\
  (is_Some (App.ecdsaKeyId s) -> is_Some (App.ecdsaKeyId s')) /\
  (is_Some (App.mldsaKeyId s) -> is_Some (App.mldsaKeyId s')).
Proof.
  revert s; induction events as [|e events IH]; intros s; [by repeat split |].
  cbn [fold_left]. destruct (IH (App.step s e)) as (I1 & I2 & I3).
  assert (H : (App.sdk s = true -> App.sdk (App.step s e) = true) /\
              (is_Some (App.ecdsaKeyId s) -> is_Some (App.ecdsaKeyId (App.step s e))) /\
              (is_Some (App.mldsaKeyId s) -> is_Some (App.mldsaKeyId (App.step s e)))).
  { destruct e as [| k t | | ke km]; cbn.
    - by repeat split.
    - destruct t; cbn; repeat split; eauto.
    - by repeat split.
    - unfold App.handleKeysRotated.
      destruct ke as [[|c ke]|], km as [[|c' km]|]; cbn; repeat split; eauto. }
  destruct H as (H1 & H2 & H3). repeat split; eauto.
Qed.

Lemma app_state_is_never_unset_witness :
  let s := App.run [App.Initialized; App.KeyCreated "key-0" App.ecdsa] in
  let s' := fold_left App.step
              [App.KeysRotated None (Some "key-1"%string); App.StatsUpdate;
               App.KeysRotated (Some ""%string) None] s in
  App.sdk s' = true /\ is_Some (App.ecdsaKeyId s').
Proof.
  intros s s'.
  destruct (app_state_is_never_unset
              [App.KeysRotated None (Some "key-1"%string); App.StatsUpdate;
               App.KeysRotated (Some ""%string) None] s) as (H1 & H2 & _).
  split; [apply H1; reflexivity | apply H2; by eexists].
Defined.

(** ** Creating keys *)

(** X7.  [handleCreateECDSA] asks for one [bsv-ecdsa-secp256k1] key of
    [BrowserAgent].  When the SDK returns it, its identifier becomes the
    application's ECDSA key and each of the three counters grows by one
    (creating a key counts as a signature and as a verification too); when
    the SDK rejects, the application state is untouched and the error is
    appended to the log.  The busy flag is reset either way. *)
Theorem handleCreateECDSA_outcome {S : Type} (sdk : KeySDK S)
    (w : World S KeyCreationSection.State) :
  App.sdk (appState w) = true ->
  let w' := snd (KeyCreationSection.handleCreateECDSA sdk w) in
  let created := createKey sdk "BrowserAgent" bsv_ecdsa_secp256k1 (sdkState w) in
  sdkState w' = snd created /\
  KeyCreationSection.isCreatingEcdsa (component w') = false /\
  match fst created with
  | Returns r =>
      App.ecdsaKeyId (appState w') = Some (keyId (meta r)) /\
      App.mldsaKeyId (appState w') = App.mldsaKeyId (appState w) /\
      App.stats (appState w') =
        {| keysCreated := keysCreated (App.stats (appState w)) + 1;
           signaturesCreated := signaturesCreated (App.stats (appState w)) + 1;
           verifications := verifications (App.stats (appState w)) + 1 |} /\
      effects w' = effects w ++
        [SdkCall (CreateKey "BrowserAgent" bsv_ecdsa_secp256k1) None;
         OnKeyCreated (keyId (meta r)) App.ecdsa; OnStatsUpdate]
  | Throws e =>
      appState w' = appState w /\
      effects w' = effects w ++
        [SdkCall (CreateKey "BrowserAgent" bsv_ecdsa_secp256k1) (Some e)] /\
      logs w' = logs w ++ [mkLogEntry "Creating ECDSA key..." info;
                           mkLogEntry ("Error: " ++ e)%string error]
  end.
Proof.
  intros Hsdk w' created. subst w' created.
  unfold KeyCreationSection.handleCreateECDSA.
  run_handler. rewrite Hsdk. cbn [negb]. run_handler.
  destruct (createKey sdk _ _ (sdkState w)) as [[r|e] st]; world_fields.
  - repeat split. rewrite <- !app_assoc. reflexivity.
  - repeat split. rewrite <- !app_assoc. reflexivity.
Qed.

Lemma handleCreateECDSA_outcome_witness :
  let w := Demo.start KeyCreationSection.initial in
  let w' := snd (KeyCreationSection.handleCreateECDSA Demo.the_sdk w) in
  App.sdk (appState w) = true /\
  App.ecdsaKeyId (appState w') = Some "key-0"%string /\
  App.stats (appState w') = mkStats 1 1 1.
Proof.
  intros w w'.
  pose proof (handleCreateECDSA_outcome Demo.the_sdk w eq_refl) as Hout.
  split; [reflexivity |].
  vm_compute in Hout. vm_compute.
  destruct Hout as (_ & _ & Hid & _ & Hstats & _). by split.
Defined.

(** X8.  [handleCreateMLDSA] asks for a key of the variant selected in the
    component, whichever of the suites that is; the identifier of the key
    the SDK returns becomes the application's ML-DSA key and the ECDSA key
    is left alone.  A rejection leaves the application state as it was. *)
Theorem handleCreateMLDSA_selected_variant {S : Type} (sdk : KeySDK S)
    (w : World S KeyCreationSection.State) :
  App.sdk (appState w) = true ->
  let variant := KeyCreationSection.mldsaVariant (component w) in
  let w' := snd (KeyCreationSection.handleCreateMLDSA sdk w) in
  let created := createKey sdk "BrowserAgent" variant (sdkState w) in
  sdkState w' = snd created /\
  KeyCreationSection.mldsaVariant (component w') = variant /\
  KeyCreationSection.isCreatingMldsa (component w') = false /\
  match fst created with
  | Returns r =>
      App.mldsaKeyId (appState w') = Some (keyId (meta r)) /\
      App.ecdsaKeyId (appState w') = App.ecdsaKeyId (appState w) /\
      effects w' = effects w ++
        [SdkCall (CreateKey "BrowserAgent" variant) None;
         OnKeyCreated (keyId (meta r)) App.mldsa; OnStatsUpdate]
  | Throws e =>
      appState w' = appState w /\
      effects w' = effects w ++ [SdkCall (CreateKey "BrowserAgent" variant) (Some e)]
  end.
Proof.
  intros Hsdk variant w' created. subst variant w' created.
  unfold KeyCreationSection.handleCreateMLDSA.
  run_handler. rewrite Hsdk. cbn [negb]. run_handler.
  destruct (createKey sdk _ _ (sdkState w)) as [[r|e] st]; world_fields.
  - repeat split. rewrite <- !app_assoc. reflexivity.
  - repeat split.
Qed.

Lemma handleCreateMLDSA_selected_variant_witness :
  let w := Demo.start (KeyCreationSection.setMldsaVariant ml_dsa_87
                         KeyCreationSection.initial) in
  let w' := snd (KeyCreationSection.handleCreateMLDSA Demo.the_sdk w) in
  App.sdk (appState w) = true /\
  effects w' = [SdkCall (CreateKey "BrowserAgent" ml_dsa_87) None;
                OnKeyCreated "key-0" App.mldsa; OnStatsUpdate] /\
  App.mldsaKeyId (appState w') = Some "key-0"%string.
Proof.
  intros w w'.
  pose proof (handleCreateMLDSA_selected_variant Demo.the_sdk w eq_refl) as Hout.
  split; [reflexivity |].
  vm_compute in Hout. vm_compute.
  destruct Hout as (_ & _ & _ & Hid & _ & Heff). by split.
Defined.

(** ** Rotation, outcome by outcome *)

(** X9.  A rotation of both keys that fails half-way: when the ECDSA key has
    been created and the creation of the ML-DSA key rejects, the application
    still names the old keys and counts nothing, but the SDK is in the state
    the two calls left, the new ECDSA key included; the log holds the error
    and the busy flag is reset. *)
Theorem handleRotateKeys_partial_failure {S : Type} (sdk : KeySDK S)
    (w : World S KeyManagementSection.State) (r1 : KeyRecord) (e : string) :
  App.sdk (appState w) = true ->
  truthy (App.ecdsaKeyId (appState w)) = true ->
  truthy (App.mldsaKeyId (appState w)) = true ->
  let first := createKey sdk "BrowserAgent" bsv_ecdsa_secp256k1 (sdkState w) in
  let second := createKey sdk "BrowserAgent" ml_dsa_65 (snd first) in
  fst first = Returns r1 ->
  fst second = Throws e ->
  let w' := snd (KeyManagementSection.handleRotateKeys sdk w) in
  appState w' = appState w /\
  sdkState w' = snd second /\
  effects w' = effects w ++
    [SdkCall (CreateKey "BrowserAgent" bsv_ecdsa_secp256k1) None;
     SdkCall (CreateKey "BrowserAgent" ml_dsa_65) (Some e)] /\
  logs w' = [mkLogEntry "Rotating keys for BrowserAgent..." info;
             mkLogEntry "Creating new keys..." info;
             mkLogEntry ("Error: " ++ e)%string error] /\
  KeyManagementSection.isRotating (component w') = false.
Proof.
  intros Hsdk He Hm first second H1 H2 w'. subst first second w'.
  unfold KeyManagementSection.handleRotateKeys.
  run_handler. rewrite Hsdk, He, Hm. cbn [negb]. run_handler.
  destruct (createKey sdk _ bsv_ecdsa_secp256k1 (sdkState w)) as [res1 st1].
  cbn [fst snd] in H1, H2. subst res1. world_fields.
  destruct (createKey sdk _ ml_dsa_65 st1) as [res2 st2].
  cbn [fst] in H2. subst res2. world_fields.
  repeat split. rewrite <- !app_assoc. reflexivity.
Qed.

Lemma handleRotateKeys_partial_failure_witness :
  let sdk := KeyStore.sdk classical_only in
  let w0 := snd (KeyCreationSection.handleCreateECDSA sdk
                   (Demo.start KeyCreationSection.initial)) in
  let w := mkWorld [] KeyManagementSection.initial
             (App.setMldsaKeyId (Some "key-x"%string) (appState w0)) (sdkState w0) [] in
  let w' := snd (KeyManagementSection.handleRotateKeys sdk w) in
  appState w' = appState w /\
  map (fun x => keyId (meta (KeyStore.record x))) (KeyStore.entries (sdkState w'))
    = ["key-0"%string; "key-1"%string] /\
  effects w' = [SdkCall (CreateKey "BrowserAgent" bsv_ecdsa_secp256k1) None;
                SdkCall (CreateKey "BrowserAgent" ml_dsa_65) (Some "UnsupportedSuite"%string)].
Proof.
  intros sdk w0 w w'.
  assert (H1 : exists r1, fst (createKey sdk "BrowserAgent" bsv_ecdsa_secp256k1 (sdkState w))
                           = Returns r1) by (eexists; reflexivity).
  destruct H1 as [r1 H1].
  pose proof (handleRotateKeys_partial_failure sdk w r1 "UnsupportedSuite"
                eq_refl eq_refl eq_refl H1 eq_refl) as Hout.
  fold w' in Hout. destruct Hout as (Ha & _ & He & _).
  split; [exact Ha |]. split; [vm_compute; reflexivity |].
  vm_compute in He. vm_compute. exact He.
Defined.

(** X10.  A rotation of both keys that succeeds: the application names the
    two new keys, [keysCreated] grows by two, and [signaturesCreated] and
    [verifications] grow by one each although nothing was signed. *)
Theorem handleRotateKeys_success {S : Type} (sdk : KeySDK S)
    (w : World S KeyManagementSection.State) (r1 r2 : KeyRecord) :
  App.sdk (appState w) = true ->
  truthy (App.ecdsaKeyId (appState w)) = true ->
  truthy (App.mldsaKeyId (appState w)) = true ->
  let first := createKey sdk "BrowserAgent" bsv_ecdsa_secp256k1 (sdkState w) in
  let second := createKey sdk "BrowserAgent" ml_dsa_65 (snd first) in
  fst first = Returns r1 ->
  fst second = Returns r2 ->
  truthy (Some (keyId (meta r1))) = true ->
  truthy (Some (keyId (meta r2))) = true ->
  let w' := snd (KeyManagementSection.handleRotateKeys sdk w) in
  App.ecdsaKeyId (appState w') = Some (keyId (meta r1)) /\
  App.mldsaKeyId (appState w') = Some (keyId (meta r2)) /\
  App.stats (appState w') =
    {| keysCreated := keysCreated (App.stats (appState w)) + 1 + 1;
       signaturesCreated := signaturesCreated (App.stats (appState w)) + 1;
       verifications := verifications (App.stats (appState w)) + 1 |} /\
  sdkState w' = snd second /\
  effects w' = effects w ++
    [SdkCall (CreateKey "BrowserAgent" bsv_ecdsa_secp256k1) None;
     SdkCall (CreateKey "BrowserAgent" ml_dsa_65) None;
     OnKeysRotated (Some (keyId (meta r1))) (Some (keyId (meta r2)));
     OnStatsUpdate].
Proof.
  intros Hsdk He Hm first second H1 H2 T1 T2 w'. subst first second w'.
  unfold KeyManagementSection.handleRotateKeys.
  run_handler. rewrite Hsdk, He, Hm. cbn [negb]. run_handler.
  destruct (createKey sdk _ bsv_ecdsa_secp256k1 (sdkState w)) as [res1 st1].
  cbn [fst snd] in H1, H2. subst res1. world_fields.
  destruct (createKey sdk _ ml_dsa_65 st1) as [res2 st2].
  cbn [fst] in H2. subst res2. world_fields.
  unfold forEach; cbn [forEach_from app]; run_handler.
  unfold App.handleKeysRotated. rewrite T1, T2.
  repeat split. rewrite <- !app_assoc. reflexivity.
Qed.

Lemma handleRotateKeys_success_witness :
  let w := Demo.enter KeyManagementSection.initial (Demo.with_both_keys ml_dsa_44) in
  let w' := snd (KeyManagementSection.handleRotateKeys Demo.the_sdk w) in
  App.ecdsaKeyId (appState w') = Some "key-2"%string /\
  App.mldsaKeyId (appState w') = Some "key-3"%string /\
  App.stats (appState w') = mkStats 4 3 3.
Proof.
  intros w w'.
  pose (r1 := mkKeyRecord (mkKeyMeta "key-2" bsv_ecdsa_secp256k1 ["sign"; "verify"]%string active)
                (repeat x02 33)).
  pose (r2 := mkKeyRecord (mkKeyMeta "key-3" ml_dsa_65 ["sign"; "verify"]%string active)
                (repeat x03 1952)).
  assert (H1 : fst (createKey Demo.the_sdk "BrowserAgent" bsv_ecdsa_secp256k1 (sdkState w))
               = Returns r1) by (vm_compute; reflexivity).
  assert (H2 : fst (createKey Demo.the_sdk "BrowserAgent" ml_dsa_65
                      (snd (createKey Demo.the_sdk "BrowserAgent" bsv_ecdsa_secp256k1
                              (sdkState w)))) = Returns r2) by (vm_compute; reflexivity).
  pose proof (handleRotateKeys_success Demo.the_sdk w r1 r2
                eq_refl eq_refl eq_refl H1 H2 eq_refl eq_refl) as Hout.
  fold w' in Hout. destruct Hout as (Ha & Hb & Hc & _).
  vm_compute in Ha, Hb, Hc. vm_compute. by repeat split.
Defined.

(** ** What the profile says *)

Lemma has_active_key_existsb (p : SignatureSuite -> bool) (keys : list KeyRecord) :
  existsb (fun k => p (suiteId (meta k))) (KeyManagementSection.activeKeys keys) = true
  <-> has_active_key p keys.
Proof.
  unfold KeyManagementSection.activeKeys, has_active_key.
  rewrite existsb_exists. split.
  - intros (k & Hin & Hp). apply filter_In in Hin as [Hin Ha].
    apply bool_decide_eq_true_1 in Ha. eauto.
  - intros (k & Hin & Ha & Hp). exists k. split; [| exact Hp].
    apply filter_In. split; [exact Hin |]. by apply bool_decide_eq_true_2.
Qed.

Lemma existsb_pointwise {A} (f g : A -> bool) (l : list A) :
  (forall x, f x = g x) -> existsb f l = existsb g l.
Proof. intros E. induction l as [|x l IH]; [reflexivity |]. cbn. by rewrite E, IH. Qed.

(** X11.  The verdict of [handleGetProfile], when the listing succeeds: the
    log is the three opening lines followed by the hybrid lines exactly when
    the listing has an active [bsv-ecdsa-secp256k1] key and an active key of
    any ML-DSA variant, by the post-quantum line when it has only the latter,
    by the classical line when it has only the former, and by the
    no-active-keys line otherwise. *)
Theorem handleGetProfile_verdict {S : Type} (sdk : KeySDK S)
    (w : World S KeyManagementSection.State) (keys : list KeyRecord) :
  App.sdk (appState w) = true ->
  fst (listKeysForAgent sdk "BrowserAgent" (Some true) (sdkState w)) = Returns keys ->
  let classical := has_active_key (fun s => bool_decide (s = bsv_ecdsa_secp256k1)) keys in
  let post_quantum := has_active_key is_ml_dsa keys in
  exists verdict,
    logs (snd (KeyManagementSection.handleGetProfile sdk w)) =
      [mkLogEntry "Getting key profile..." info;
       mkLogEntry "Active Keys Profile:" success;
       mkLogEntry ("   Total active keys: "
                   ++ show (length (KeyManagementSection.activeKeys keys)))%string info]
      ++ verdict /\
    (classical -> post_quantum ->
     verdict = [mkLogEntry "Hybrid mode: Maximum security!" success;
                mkLogEntry "   Classical ECDSA for current compatibility" info;
                mkLogEntry "   Post-quantum ML-DSA for future-proofing" info]) /\
    (~ classical -> post_quantum ->
     verdict = [mkLogEntry "Post-quantum only: Future-ready!" success]) /\
    (classical -> ~ post_quantum ->
     verdict = [mkLogEntry "Classical only: Standard ECDSA" info]) /\
    (~ classical -> ~ post_quantum ->
     verdict = [mkLogEntry "No active keys" info]).
Proof.
  intros Hsdk Hlist classical post_quantum.
  unfold KeyManagementSection.handleGetProfile.
  run_handler. rewrite Hsdk. cbn [negb]. run_handler.
  destruct (listKeysForAgent sdk _ _ (sdkState w)) as [res st].
  cbn [fst] in Hlist. subst res. world_fields.
  pose proof (has_active_key_existsb (fun s => bool_decide (s = bsv_ecdsa_secp256k1)) keys)
    as Hc. fold classical in Hc.
  pose proof (has_active_key_existsb is_ml_dsa keys) as Hq. fold post_quantum in Hq.
  assert (Hpre : forall k : KeyRecord,
             String.prefix "ml-dsa" (suite_name (suiteId (meta k)))
             = is_ml_dsa (suiteId (meta k))) by (intros k; by destruct (suiteId (meta k))).
  rewrite (existsb_pointwise _ _ (KeyManagementSection.activeKeys keys) Hpre).
  destruct (existsb _ (KeyManagementSection.activeKeys keys)) eqn:Ec;
    destruct (existsb (fun k => is_ml_dsa _) (KeyManagementSection.activeKeys keys)) eqn:Eq;
    cbn [andb]; world_fields.
  all: eexists; split; [rewrite <- ?app_assoc; reflexivity |].
  all: repeat split; intros; try reflexivity; exfalso.
  all: try (assert classical by (apply Hc; reflexivity));
       try (assert post_quantum by (apply Hq; reflexivity));
       try (assert (~ classical) by (intros X; apply Hc in X; discriminate X));
       try (assert (~ post_quantum) by (intros X; apply Hq in X; discriminate X)).
  all: contradiction.
Qed.

Lemma handleGetProfile_verdict_witness :
  let w := Demo.enter KeyManagementSection.initial (Demo.with_both_keys ml_dsa_87) in
  In (mkLogEntry "Hybrid mode: Maximum security!" success)
     (logs (snd (KeyManagementSection.handleGetProfile Demo.the_sdk w))).
Proof.
  intros w.
  pose (keys := [mkKeyRecord (mkKeyMeta "key-0" bsv_ecdsa_secp256k1
                                ["sign"; "verify"]%string active) (repeat x00 33);
                 mkKeyRecord (mkKeyMeta "key-1" ml_dsa_87
                                ["sign"; "verify"]%string active) (repeat x01 2592)]).
  assert (Hlist : fst (listKeysForAgent Demo.the_sdk "BrowserAgent" (Some true) (sdkState w))
                  = Returns keys) by (vm_compute; reflexivity).
  destruct (handleGetProfile_verdict Demo.the_sdk w keys eq_refl Hlist)
    as (verdict & Hlogs & Hhybrid & _).
  rewrite Hlogs, Hhybrid.
  - right; right; right; left; reflexivity.
  - eexists; split; [left; reflexivity | by split].
  - eexists; split; [right; left; reflexivity | by split].
Defined.

(** ** Sign and verify with one key *)

(** X12.  Which key [handleSignAndVerify] signs with: the ECDSA key whenever
    the application has one, also when it has an ML-DSA key as well; the
    ML-DSA key otherwise; and with neither it calls nothing, counts nothing,
    and leaves an empty log and a reset busy flag. *)
Theorem handleSignAndVerify_key_choice {S : Type} (sdk : KeySDK S)
    (w : World S SigningSection.State) :
  App.sdk (appState w) = true ->
  let w' := snd (SigningSection.handleSignAndVerify sdk w) in
  let m := SigningSection.hello_message in
  (forall k, App.ecdsaKeyId (appState w) = Some k -> truthy (Some k) = true ->
     exists rest, effects w' =
       effects w ++ SdkCall (SignWithKey k m)
                      (rejection (fst (signWithKey sdk k m (sdkState w)))) :: rest) /\
  (forall k, truthy (App.ecdsaKeyId (appState w)) = false ->
     App.mldsaKeyId (appState w) = Some k -> truthy (Some k) = true ->
     exists rest, effects w' =
       effects w ++ SdkCall (SignWithKey k m)
                      (rejection (fst (signWithKey sdk k m (sdkState w)))) :: rest) /\
  (truthy (App.ecdsaKeyId (appState w)) = false ->
   truthy (App.mldsaKeyId (appState w)) = false ->
   effects w' = effects w /\ appState w' = appState w /\ sdkState w' = sdkState w /\
   logs w' = [] /\ SigningSection.isSigning (component w') = false).
Proof.
  intros Hsdk w' m. subst w' m. unfold SigningSection.handleSignAndVerify.
  run_handler. rewrite Hsdk. cbn [negb]. run_handler.
  split; [| split].
  - intros k Hk Tk. rewrite Hk, Tk. rewrite Tk. cbn [negb default]. run_handler.
    change (id k) with k.
    destruct (signWithKey sdk k _ (sdkState w)) as [[sg|e] st]; world_fields.
    + destruct (verifySignature sdk k _ sg st) as [[[]|e] st']; world_fields;
        eexists; rewrite <- ?app_assoc; reflexivity.
    + eexists; reflexivity.
  - intros k Te Hk Tk. rewrite Te, Hk, Tk. cbn [negb default]. run_handler.
    change (id k) with k.
    destruct (signWithKey sdk k _ (sdkState w)) as [[sg|e] st]; world_fields.
    + destruct (verifySignature sdk k _ sg st) as [[[]|e] st']; world_fields;
        eexists; rewrite <- ?app_assoc; reflexivity.
    + eexists; reflexivity.
  - intros Te Tm. rewrite Te, Tm. cbn [negb]. run_handler. by repeat split.
Qed.

Lemma handleSignAndVerify_key_choice_witness :
  let w := Demo.enter SigningSection.initial (Demo.with_both_keys ml_dsa_44) in
  let w' := snd (SigningSection.handleSignAndVerify Demo.the_sdk w) in
  exists rest, effects w' =
    effects w ++ SdkCall (SignWithKey "key-0" SigningSection.hello_message) None :: rest.
Proof.
  intros w w'.
  destruct (handleSignAndVerify_key_choice Demo.the_sdk w eq_refl) as (Hecdsa & _).
  destruct (Hecdsa "key-0"%string eq_refl eq_refl) as [rest Hrest].
  exists rest. fold w' in Hrest. rewrite Hrest. do 3 f_equal.
Defined.

(** X13.  What [handleSignAndVerify] counts.  With [k] the key it signs with:
    when the sign call rejects, no verification is attempted and the
    application state is untouched; when the sign call and the verification
    both settle, the statistics are updated whether the verification
    answered [true] or [false], and the log says which; when the
    verification rejects, nothing is counted. *)
Theorem handleSignAndVerify_outcome {S : Type} (sdk : KeySDK S)
    (w : World S SigningSection.State) (k : string) :
  App.sdk (appState w) = true ->
  (if truthy (App.ecdsaKeyId (appState w))
   then App.ecdsaKeyId (appState w) else App.mldsaKeyId (appState w)) = Some k ->
  truthy (Some k) = true ->
  let w' := snd (SigningSection.handleSignAndVerify sdk w) in
  let m := SigningSection.hello_message in
  let signed := signWithKey sdk k m (sdkState w) in
  match fst signed with
  | Throws e =>
      effects w' = effects w ++ [SdkCall (SignWithKey k m) (Some e)] /\
      appState w' = appState w /\ sdkState w' = snd signed
  | Returns signature =>
      let verified := verifySignature sdk k m signature (snd signed) in
      sdkState w' = snd verified /\
      match fst verified with
      | Returns isValid =>
          effects w' = effects w ++
            [SdkCall (SignWithKey k m) None;
             SdkCall (VerifySignature k m signature) None; OnStatsUpdate] /\
          appState w' = App.handleStatsUpdate (appState w) /\
          In (if isValid
              then mkLogEntry ("Signature verified in " ++ elapsed)%string success
              else mkLogEntry "Signature verification failed!" error) (logs w')
      | Throws e =>
          effects w' = effects w ++
            [SdkCall (SignWithKey k m) None;
             SdkCall (VerifySignature k m signature) (Some e)] /\
          appState w' = appState w
      end
  end.
Proof.
  intros Hsdk Hk Tk w' m signed. subst w' m signed.
  unfold SigningSection.handleSignAndVerify.
  run_handler. rewrite Hsdk. cbn [negb]. run_handler.
  rewrite Hk, Tk. cbn [negb default]. run_handler. change (id k) with k.
  destruct (signWithKey sdk k _ (sdkState w)) as [[sg|e] st]; world_fields.
  - destruct (verifySignature sdk k _ sg st) as [[[]|e] st']; world_fields.
    + split; [reflexivity |]. split; [rewrite <- ?app_assoc; reflexivity |].
      split; [reflexivity |]. rewrite !in_app_iff. cbn. tauto.
    + split; [reflexivity |]. split; [rewrite <- ?app_assoc; reflexivity |].
      split; [reflexivity |]. rewrite !in_app_iff. cbn. tauto.
    + split; [reflexivity |]. split; [rewrite <- ?app_assoc; reflexivity | reflexivity].
  - by repeat split.
Qed.

Lemma handleSignAndVerify_outcome_witness :
  let w := Demo.deactivated "key-0" (Demo.enter SigningSection.initial
                                       (Demo.with_both_keys ml_dsa_44)) in
  let w' := snd (SigningSection.handleSignAndVerify Demo.the_sdk w) in
  effects w' = effects w ++ [SdkCall (SignWithKey "key-0" SigningSection.hello_message)
                               (Some "InactiveKey"%string)] /\
  appState w' = appState w.
Proof.
  intros w w'.
  pose proof (handleSignAndVerify_outcome Demo.the_sdk w "key-0"
                eq_refl eq_refl eq_refl) as Hout.
  vm_compute in Hout. vm_compute. destruct Hout as (He & Ha & _). by split.
Defined.

(** ** Signing a custom message *)







(** ** Listing keys *)

Lemma log_key_run {S C} (key : KeyRecord) (i : nat) (w : World S C) :
  exists lines,
    log_key key i w
    = (Returns tt,
       mkWorld (logs w ++ lines) (component w) (appState w) (sdkState w) (effects w))
    /\ length lines = 5.
Proof.
  unfold log_key. run_handler. eexists. split.
  - rewrite <- !app_assoc. reflexivity.
  - reflexivity.
Qed.

Lemma forEach_log_key {S C} (keys : list KeyRecord) :
  forall (i : nat) (w : World S C),
    exists lines,
      forEach_from i keys log_key w
      = (Returns tt,
         mkWorld (logs w ++ lines) (component w) (appState w) (sdkState w) (effects w))
      /\ length lines = 5 * length keys.
Proof.
  induction keys as [|key keys IH]; intros i w.
  - exists []. split; [|reflexivity].
    cbn [forEach_from]. cbv [mret Handler_ret]. rewrite app_nil_r. destruct w; reflexivity.
  - cbn [forEach_from]. cbv [mbind Handler_bind].
    destruct (log_key_run key i w) as [l1 [E1 L1]]. rewrite E1.
    match goal with
    | |- context [forEach_from _ keys log_key ?w1] => destruct (IH (i + 1) w1) as [lines [E L]]
    end.
    rewrite E. world_fields.
    exists (l1 ++ lines). split.
    + rewrite <- !app_assoc. reflexivity.
    + rewrite length_app. cbn [length]. lia.
Qed.

(** X17.  [handleListKeys] asks the SDK once, for every key of
    [BrowserAgent] (no [activeOnly] filter), and changes nothing in the
    application.  When the SDK answers, the log holds two lines and five
    more for each key returned, inactive keys included; when it rejects,
    the log holds the announcement and the error.  Either way the handler
    completes and [isListing] is reset. *)
Theorem handleListKeys_lists_every_key {S} (sdk : KeySDK S)
    (w : World S KeyManagementSection.State)
    (Hsdk : App.sdk (appState w) = true) :
  let answer := listKeysForAgent sdk "BrowserAgent" None (sdkState w) in
  let result := handleListKeys sdk w in
  result.1 = Returns tt
  /\ appState result.2 = appState w
  /\ sdkState result.2 = answer.2
  /\ KeyManagementSection.isListing (component result.2) = false
  /\ effects result.2
     = effects w ++ [SdkCall (ListKeysForAgent "BrowserAgent" None) (rejection answer.1)]
  /\ match answer.1 with
     | Returns keys => length (logs result.2) = 2 + 5 * length keys
     | Throws e =>
         logs result.2 = [mkLogEntry "Listing keys for BrowserAgent..." info;
                          mkLogEntry ("Error: " ++ e) error]
     end.
Proof.
  intros answer result. subst result answer.
  unfold handleListKeys, forEach. run_handler. rewrite Hsdk. cbn [negb]. run_handler.
  destruct (listKeysForAgent sdk "BrowserAgent" None (sdkState w)) as [[keys|e] st];
    world_fields.
  - match goal with
    | |- context [forEach_from 0 keys log_key ?w1] =>
        destruct (forEach_log_key keys 0 w1) as [lines [E L]]
    end.
    rewrite E. world_fields.
    repeat split. rewrite length_app. cbn [length app]. lia.
  - repeat split.
Qed.

Lemma handleListKeys_lists_every_key_witness :
  let w := Demo.enter KeyManagementSection.initial (Demo.with_both_keys ml_dsa_44) in
  length (logs (handleListKeys Demo.the_sdk w).2) = 12.
Proof.
  intros w.
  destruct (handleListKeys_lists_every_key Demo.the_sdk w eq_refl) as (_ & _ & _ & _ & _ & H).
  vm_compute in H |- *. exact H.
Defined.

(** ** Verifying an external signature *)

Section ExternalVerification.
Import SignatureVerificationSection.

(** X18.  [handleVerifySignature] with the SDK missing or one of its three
    text fields empty only appends [Please fill in all fields] to the log:
    the log is not cleared, no SDK method is called, and the verdict of an
    earlier verification stays as it was. *)
Theorem handleVerifySignature_incomplete {S} (sdk : KeySDK S) (more : KeySDKUndeclared S)
    (w : World S State)
    (H : App.sdk (appState w) = false
         \/ message (component w) = ""
         \/ publicKeyHex (component w) = ""
         \/ signatureHex (component w) = "") :
  handleVerifySignature sdk more w
  = (Returns tt,
     mkWorld (logs w ++ [mkLogEntry "Please fill in all fields" error])
       (component w) (appState w) (sdkState w) (effects w)).
Proof.
  unfold handleVerifySignature. run_handler.
  assert (G : negb (App.sdk (appState w)) || is_empty (message (component w))
              || is_empty (publicKeyHex (component w))
              || is_empty (signatureHex (component w)) = true).
  { destruct H as [H | [H | [H | H]]]; rewrite H; cbn [negb is_empty orb];
      rewrite ?orb_true_r; reflexivity. }
  rewrite G. reflexivity.
Qed.

Lemma handleVerifySignature_incomplete_witness :
  let c := mkState "hello" "" "00" ecdsa false (Some valid) in
  verificationResult
    (component (handleVerifySignature Demo.the_sdk demo_undeclared (Demo.start c)).2)
  = Some valid.
Proof.
  intros c.
  rewrite (handleVerifySignature_incomplete Demo.the_sdk demo_undeclared (Demo.start c)).
  - reflexivity.
  - right; right; left; reflexivity.
Defined.

Lemma is_empty_false (s : string) : s <> "" -> is_empty s = false.
Proof. destruct s; [congruence | reflexivity]. Qed.

(** X19.  The verdict of [handleVerifySignature] when all fields are filled.
    The key and the signature handed to the SDK are the octets spelled by
    the hexadecimal digits of the two fields, whatever else the fields
    contain.  The verdict is [valid] exactly when the key was imported and
    [verifySignature] resolved to [true]; a [false] answer and a rejection
    of either call both give [invalid].  The handler completes, resets
    [isVerifying], and never touches the application state: this
    verification is not counted in the statistics. *)
Theorem handleVerifySignature_verdict {S} (sdk : KeySDK S) (more : KeySDKUndeclared S)
    (w : World S State)
    (Hsdk : App.sdk (appState w) = true)
    (Hmessage : message (component w) <> "")
    (Hkey : publicKeyHex (component w) <> "")
    (Hsig : signatureHex (component w) <> "")
    (Hkeylen : (Z.of_nat (String.length (publicKeyHex (component w))) <= 2 ^ 53 - 1)%Z)
    (Hsiglen : (Z.of_nat (String.length (signatureHex (component w))) <= 2 ^ 53 - 1)%Z) :
  let c := component w in
  let publicKey := pair_up (digit_values (publicKeyHex c)) in
  let signature := pair_up (digit_values (signatureHex c)) in
  let imported :=
    importPublicKey more publicKey (algorithm_name (algorithm c)) (sdkState w) in
  let result := handleVerifySignature sdk more w in
  result.1 = Returns tt
  /\ appState result.2 = appState w
  /\ isVerifying (component result.2) = false
  /\ match imported.1 with
     | Throws e =>
         effects result.2 = effects w
         /\ sdkState result.2 = imported.2
         /\ verificationResult (component result.2) = Some invalid
         /\ last (logs result.2) = Some (mkLogEntry ("Verification error: " ++ e) error)
     | Returns keyId =>
         let checked :=
           verifySignature sdk keyId (TextEncoder_encode (message c)) signature imported.2 in
         effects result.2
         = effects w ++ [SdkCall (VerifySignature keyId (TextEncoder_encode (message c))
                                    signature) (rejection checked.1)]
         /\ sdkState result.2 = checked.2
         /\ verificationResult (component result.2)
            = Some (match checked.1 with Returns true => valid | _ => invalid end)
     end.
Proof.
  intros c publicKey signature imported result.
  subst result imported publicKey signature c.
  unfold handleVerifySignature. run_handler.
  rewrite Hsdk, (is_empty_false _ Hmessage), (is_empty_false _ Hkey),
    (is_empty_false _ Hsig).
  cbn [negb orb]. run_handler. cbv [evaluate sdk_call_undeclared]. world_fields.
  rewrite (hexToUint8Array_digit_values _ Hkeylen), (hexToUint8Array_digit_values _ Hsiglen).
  world_fields.
  destruct (importPublicKey more _ _ (sdkState w)) as [[keyId|e] st1]; world_fields.
  - destruct (verifySignature sdk keyId _ _ st1) as [[[]|e] st2]; world_fields;
      repeat split.
  - repeat split.
Qed.

Lemma handleVerifySignature_verdict_witness :
  let text := "hi" in
  let key := repeat x00 33 in
  let c := mkState text (saveKeyHex key)
             (saveKeyHex (Demo.tag x00 bsv_ecdsa_secp256k1 (TextEncoder_encode text)))
             ecdsa false None in
  verificationResult
    (component (handleVerifySignature Demo.the_sdk demo_undeclared (Demo.start c)).2)
  = Some valid.
Proof.
  intros text key c.
  assert (Hkeylen : (Z.of_nat (String.length (publicKeyHex c)) <= 2 ^ 53 - 1)%Z)
    by (vm_compute; discriminate).
  assert (Hsiglen : (Z.of_nat (String.length (signatureHex c)) <= 2 ^ 53 - 1)%Z)
    by (vm_compute; discriminate).
  assert (Hmessage : message c <> "") by discriminate.
  assert (Hkey : publicKeyHex c <> "") by (vm_compute; discriminate).
  assert (Hsig : signatureHex c <> "") by (vm_compute; discriminate).
  destruct (handleVerifySignature_verdict Demo.the_sdk demo_undeclared (Demo.start c)
              eq_refl Hmessage Hkey Hsig Hkeylen Hsiglen) as (_ & _ & _ & H).
  vm_compute in H. destruct H as (_ & _ & H).
  vm_compute. exact H.
Defined.

End ExternalVerification.

(** ** Export and browser storage *)

(** X20.  [handleExportPublicKeys] with both keys present exports both or
    nothing.  The keys are fetched in the order ECDSA, ML-DSA; when both
    arrive the component holds [arrayToHex] of each, cut at the default 32
    octets; when one fetch rejects the component holds no key at all, also
    if the ECDSA key had already been fetched, and the ML-DSA key is not
    asked for after the ECDSA fetch failed. *)
Theorem handleExportPublicKeys_all_or_nothing {S} (more : KeySDKUndeclared S)
    (w : World S KeyExportSection.State) (k1 k2 : string)
    (Hsdk : App.sdk (appState w) = true)
    (He : App.ecdsaKeyId (appState w) = Some k1) (Te : truthy (Some k1) = true)
    (Hm : App.mldsaKeyId (appState w) = Some k2) (Tm : truthy (Some k2) = true) :
  let first := getPublicKey more k1 (sdkState w) in
  let second := getPublicKey more k2 first.2 in
  let result := KeyExportSection.handleExportPublicKeys more w in
  let exported := KeyExportSection.publicKeys (component result.2) in
  result.1 = Returns tt
  /\ appState result.2 = appState w
  /\ effects result.2 = effects w
  /\ match first.1, second.1 with
     | Returns pk1, Returns pk2 =>
         exported = KeyExportSection.mkPublicKeys
                      (Some (arrayToHex pk1 32)) (Some (arrayToHex pk2 32))
         /\ sdkState result.2 = second.2
     | Returns _, Throws e =>
         exported = KeyExportSection.mkPublicKeys None None
         /\ sdkState result.2 = second.2
         /\ last (logs result.2) = Some (mkLogEntry ("Error: " ++ e) error)
     | Throws e, _ =>
         exported = KeyExportSection.mkPublicKeys None None
         /\ sdkState result.2 = first.2
         /\ logs result.2 = [mkLogEntry "Exporting ECDSA public key..." info;
                             mkLogEntry ("Error: " ++ e) error]
     end.
Proof.
  intros first second result exported. subst exported result second first.
  unfold KeyExportSection.handleExportPublicKeys, try_catch, KeyExportSection.export_one.
  run_handler. rewrite Hsdk. cbn [negb]. run_handler.
  rewrite He, Hm, Te, Tm. cbn [default]. run_handler.
  cbv [sdk_call_undeclared id]. world_fields.
  destruct (getPublicKey more k1 (sdkState w)) as [[pk1|e] st1]; world_fields.
  - destruct (getPublicKey more k2 st1) as [[pk2|e] st2]; world_fields; repeat split.
  - repeat split.
Qed.

Lemma handleExportPublicKeys_all_or_nothing_witness :
  let w := Demo.enter (KeyExportSection.mkState (KeyExportSection.mkPublicKeys None None) None)
             (Demo.with_both_keys ml_dsa_44) in
  KeyExportSection.publicKeys
    (component (KeyExportSection.handleExportPublicKeys demo_undeclared w).2)
  = KeyExportSection.mkPublicKeys
      (Some (arrayToHex (repeat x00 33) 32)) (Some (arrayToHex (repeat x01 1312) 32)).
Proof.
  intros w.
  destruct (handleExportPublicKeys_all_or_nothing demo_undeclared w "key-0" "key-1"
              eq_refl eq_refl eq_refl eq_refl eq_refl) as (_ & _ & _ & H).
  vm_compute in H. destruct H as [H _].
  vm_compute. exact H.
Defined.

(** X21.  [handleSaveKeys] with both keys present stores both or nothing.
    When both public keys arrive, the [localStorage] entry and [storedKeys]
    become the two records, ECDSA first, each with the full hexadecimal
    text of its key; when a fetch rejects, the entry and [storedKeys] are
    what they were.  [isLoading] is reset either way. *)
Theorem handleSaveKeys_all_or_nothing {S} (more : KeySDKUndeclared S)
    (w : World S KeyStorageSection.State) (k1 k2 : string)
    (Hsdk : App.sdk (appState w) = true)
    (He : App.ecdsaKeyId (appState w) = Some k1) (Te : truthy (Some k1) = true)
    (Hm : App.mldsaKeyId (appState w) = Some k2) (Tm : truthy (Some k2) = true) :
  let first := getPublicKey more k1 (sdkState w) in
  let second := getPublicKey more k2 first.2 in
  let result := KeyStorageSection.handleSaveKeys more w in
  let c := component result.2 in
  result.1 = Returns tt
  /\ appState result.2 = appState w
  /\ KeyStorageSection.isLoading c = false
  /\ match first.1, second.1 with
     | Returns pk1, Returns pk2 =>
         let saved := [KeyStorageSection.mkStoredKeyData k1 "ECDSA" (saveKeyHex pk1);
                       KeyStorageSection.mkStoredKeyData k2 "ML-DSA" (saveKeyHex pk2)] in
         KeyStorageSection.localStorage c = Some saved
         /\ KeyStorageSection.storedKeys c = saved
     | _, _ =>
         KeyStorageSection.localStorage c = KeyStorageSection.localStorage (component w)
         /\ KeyStorageSection.storedKeys c = KeyStorageSection.storedKeys (component w)
         /\ exists e, last (logs result.2) = Some (mkLogEntry ("Error: " ++ e) error)
     end.
Proof.
  intros first second result c. subst c result second first.
  unfold KeyStorageSection.handleSaveKeys, KeyStorageSection.save_one.
  run_handler. rewrite Hsdk. cbn [negb]. run_handler.
  rewrite He, Hm, Te, Tm. cbn [default]. run_handler.
  cbv [sdk_call_undeclared id]. world_fields.
  destruct (getPublicKey more k1 (sdkState w)) as [[pk1|e] st1]; world_fields.
  - destruct (getPublicKey more k2 st1) as [[pk2|e] st2]; world_fields; repeat split.
    eexists; reflexivity.
  - repeat split. eexists; reflexivity.
Qed.

Lemma handleSaveKeys_all_or_nothing_witness :
  let w := Demo.enter (KeyStorageSection.mkState [] false None)
             (Demo.with_both_keys ml_dsa_44) in
  KeyStorageSection.localStorage
    (component (KeyStorageSection.handleSaveKeys demo_undeclared w).2)
  = Some [KeyStorageSection.mkStoredKeyData "key-0" "ECDSA" (saveKeyHex (repeat x00 33));
          KeyStorageSection.mkStoredKeyData "key-1" "ML-DSA" (saveKeyHex (repeat x01 1312))].
Proof.
  intros w.
  destruct (handleSaveKeys_all_or_nothing demo_undeclared w "key-0" "key-1"
              eq_refl eq_refl eq_refl eq_refl eq_refl) as (_ & _ & _ & H).
  vm_compute in H. destruct H as [H _].
  vm_compute. exact H.
Defined.

(** X22.  Saved keys survive a page refresh: after a successful save, a
    fresh mount of the component loads the two records from [localStorage],
    and decoding each stored text with [hexToUint8Array] gives back the
    public key the SDK returned, octet for octet. *)
Theorem saved_keys_survive_refresh {S} (more : KeySDKUndeclared S)
    (w : World S KeyStorageSection.State) (k1 k2 : string) (pk1 pk2 : Uint8Array)
    (Hsdk : App.sdk (appState w) = true)
    (He : App.ecdsaKeyId (appState w) = Some k1) (Te : truthy (Some k1) = true)
    (Hm : App.mldsaKeyId (appState w) = Some k2) (Tm : truthy (Some k2) = true)
    (H1 : (getPublicKey more k1 (sdkState w)).1 = Returns pk1)
    (H2 : (getPublicKey more k2 (getPublicKey more k1 (sdkState w)).2).1 = Returns pk2)
    (L1 : (Z.of_nat (2 * length pk1) <= 2 ^ 53 - 1)%Z)
    (L2 : (Z.of_nat (2 * length pk2) <= 2 ^ 53 - 1)%Z) :
  let saved := (KeyStorageSection.handleSaveKeys more w).2 in
  let reloaded := KeyStorageSection_mount saved in
  let keys := KeyStorageSection.storedKeys (component reloaded) in
  map KeyStorageSection.id keys = [k1; k2]
  /\ map (fun k => hexToUint8Array (KeyStorageSection.publicKey k)) keys
     = [Returns pk1; Returns pk2]
  /\ logs reloaded = [mkLogEntry "Loaded 2 key(s) from browser storage" success]
  /\ KeyStorageSection.localStorage (component reloaded)
     = KeyStorageSection.localStorage (component saved).
Proof.
  intros saved reloaded keys. subst keys reloaded saved.
  unfold KeyStorageSection_mount, KeyStorageSection.loadStoredKeys, try_catch.
  unfold KeyStorageSection.handleSaveKeys, KeyStorageSection.save_one.
  run_handler. rewrite Hsdk. cbn [negb]. run_handler.
  rewrite He, Hm, Te, Tm. cbn [default]. run_handler.
  cbv [sdk_call_undeclared id]. world_fields.
  destruct (getPublicKey more k1 (sdkState w)) as [[q1|e] st1]; [|discriminate].
  cbn [fst snd] in H1, H2. injection H1 as ->. world_fields.
  destruct (getPublicKey more k2 st1) as [[q2|e] st2]; [|discriminate].
  cbn [fst] in H2. injection H2 as ->. world_fields.
  cbn [KeyStorageSection.localStorage KeyStorageSection.storedKeys
       KeyStorageSection.setStoredKeys KeyStorageSection.localStorage_setItem
       KeyStorageSection.setIsLoading component].
  run_handler.
  cbn [KeyStorageSection.localStorage KeyStorageSection.storedKeys
       KeyStorageSection.setStoredKeys map KeyStorageSection.id
       KeyStorageSection.publicKey].
  repeat split. cbn [app map KeyStorageSection.publicKey].
  unfold saveKeyHex. rewrite (decode_encoded _ L1), (decode_encoded _ L2). reflexivity.
Qed.

Lemma saved_keys_survive_refresh_witness :
  let w := Demo.enter (KeyStorageSection.mkState [] false None)
             (Demo.with_both_keys ml_dsa_44) in
  let reloaded :=
    KeyStorageSection_mount (KeyStorageSection.handleSaveKeys demo_undeclared w).2 in
  map (fun k => hexToUint8Array (KeyStorageSection.publicKey k))
    (KeyStorageSection.storedKeys (component reloaded))
  = [Returns (repeat x00 33); Returns (repeat x01 1312)].
Proof.
  intros w.
  assert (L1 : (Z.of_nat (2 * length (repeat x00 33)) <= 2 ^ 53 - 1)%Z)
    by (vm_compute; discriminate).
  assert (L2 : (Z.of_nat (2 * length (repeat x01 1312)) <= 2 ^ 53 - 1)%Z)
    by (vm_compute; discriminate).
  assert (H1 : (getPublicKey demo_undeclared "key-0" (sdkState w)).1
               = Returns (repeat x00 33)) by (vm_compute; reflexivity).
  assert (H2 : (getPublicKey demo_undeclared "key-1"
                  (getPublicKey demo_undeclared "key-0" (sdkState w)).2).1
               = Returns (repeat x01 1312)) by (vm_compute; reflexivity).
  exact (proj1 (proj2 (saved_keys_survive_refresh demo_undeclared w "key-0" "key-1" _ _
                         eq_refl eq_refl eq_refl eq_refl eq_refl H1 H2 L1 L2))).
Defined.

(** X23.  [handleClearStorage] removes the entry, empties [storedKeys] and
    leaves the single line [Storage cleared] in the log; a mount after it
    finds nothing. *)
Theorem handleClearStorage_then_refresh {S} (w : World S KeyStorageSection.State) :
  let cleared := (@KeyStorageSection.handleClearStorage S w).2 in
  let reloaded := KeyStorageSection_mount cleared in
  (@KeyStorageSection.handleClearStorage S w).1 = Returns tt
  /\ logs cleared = [mkLogEntry "Storage cleared" success]
  /\ component cleared
     = KeyStorageSection.mkState [] (KeyStorageSection.isLoading (component w)) None
  /\ appState cleared = appState w /\ sdkState cleared = sdkState w
  /\ KeyStorageSection.storedKeys (component reloaded) = []
  /\ logs reloaded = [mkLogEntry "No keys found in storage" info].
Proof.
  intros cleared reloaded. subst reloaded cleared.
  unfold KeyStorageSection_mount, KeyStorageSection.loadStoredKeys, try_catch,
    KeyStorageSection.handleClearStorage.
  run_handler. repeat split.
Qed.

(** X24.  [handleSaveKeys] without any key still writes: the entry becomes
    the empty array, no SDK method is called, and a mount after it reports
    [Loaded 0 key(s)] rather than [No keys found in storage]. *)
Theorem handleSaveKeys_without_keys {S} (more : KeySDKUndeclared S)
    (w : World S KeyStorageSection.State)
    (Hsdk : App.sdk (appState w) = true)
    (Te : truthy (App.ecdsaKeyId (appState w)) = false)
    (Tm : truthy (App.mldsaKeyId (appState w)) = false) :
  let saved := (KeyStorageSection.handleSaveKeys more w).2 in
  let reloaded := KeyStorageSection_mount saved in
  KeyStorageSection.localStorage (component saved) = Some []
  /\ sdkState saved = sdkState w
  /\ logs saved = [mkLogEntry "Saved 0 key(s) to browser storage" success;
                   mkLogEntry "Keys persist across page refreshes" info]
  /\ logs reloaded = [mkLogEntry "Loaded 0 key(s) from browser storage" success].
Proof.
  intros saved reloaded. subst reloaded saved.
  unfold KeyStorageSection_mount, KeyStorageSection.loadStoredKeys, try_catch.
  unfold KeyStorageSection.handleSaveKeys, KeyStorageSection.save_one.
  run_handler. rewrite Hsdk. cbn [negb]. run_handler.
  rewrite Te, Tm. run_handler. repeat split.
Qed.

Lemma handleSaveKeys_without_keys_witness :
  let w := Demo.start (KeyStorageSection.mkState [] false None) in
  logs (KeyStorageSection_mount (KeyStorageSection.handleSaveKeys demo_undeclared w).2)
  = [mkLogEntry "Loaded 0 key(s) from browser storage" success].
Proof.
  intros w.
  exact (proj2 (proj2 (proj2 (handleSaveKeys_without_keys demo_undeclared w
                                eq_refl eq_refl eq_refl)))).
Defined.

(** ** Initialisation *)

Section Initialisation.
Import InitializeSection.

Ltac initialize_cells :=
  cbn [setIsLoading setIsInitialized setWindow isLoading isInitialized window
       Loader.head Loader.LumenKeys Loader.script_executes Loader.script_onload
       Loader.script_onerror].
Ltac run_straight :=
  cbv [mbind mret Handler_bind Handler_ret try_catch_finally try_catch read setLogs addLog
       setComponent evaluate sdk_call_undeclared logs component appState sdkState effects
       fst snd].
Tactic Notation "initialize_cells" "in" hyp(H) :=
  cbn [setIsLoading setIsInitialized setWindow isLoading isInitialized window
       Loader.head Loader.LumenKeys Loader.script_executes Loader.script_onload
       Loader.script_onerror component] in H.

Lemma handleInitialize_resume_outcome {S} (createKeySDK loaded : completion unit)
    (w : World S State) :
  let r := handleInitialize_resume createKeySDK loaded w in
  r.1 = Returns tt
  /\ isLoading (component r.2) = false
  /\ sdkState r.2 = sdkState w
  /\ effects r.2 = effects w
  /\ window (component r.2) = window (component w)
  /\ match loaded with
     | Throws e =>
         appState r.2 = appState w
         /\ isInitialized (component r.2) = isInitialized (component w)
         /\ logs r.2 = logs w ++ [failed e]
     | Returns _ =>
         if Loader.LumenKeys (window (component w))
         then match createKeySDK with
              | Returns _ =>
                  appState r.2 = App.setSdk (appState w)
                  /\ isInitialized (component r.2) = true
                  /\ exists lines, logs r.2 = logs w ++ lines /\ length lines = 7
                                   /\ Forall (fun x => type x <> error) lines
              | Throws e =>
                  appState r.2 = appState w
                  /\ isInitialized (component r.2) = isInitialized (component w)
                  /\ logs r.2 = logs w ++ [mkLogEntry "Creating KeySDK instance..." info;
                                            failed e]
              end
         else appState r.2 = appState w
              /\ isInitialized (component r.2) = isInitialized (component w)
              /\ logs r.2 = logs w ++ [mkLogEntry "Creating KeySDK instance..." info;
                                        failed "LumenKeys SDK not available"]
     end.
Proof.
  intros r. subst r. unfold handleInitialize_resume, onInitialized, failed.
  destruct w as [l [i ld [g h]] a s x].
  destruct loaded as [[]|e]; [destruct g; [destruct createKeySDK as [[]|e]|]|];
    run_straight; initialize_cells; cbn [negb];
    world_fields; initialize_cells; repeat split; rewrite <- ?app_assoc; try reflexivity.
  eexists. split; [reflexivity|]. split; [reflexivity|]. repeat constructor; discriminate.
Qed.

Lemma handleInitialize_start_outcome {S} (w : World S State) :
  let page := window (component w) in
  handleInitialize_start w
  = (if Loader.LumenKeys page then Loader.Fulfilled else Loader.Pending,
     mkWorld [mkLogEntry "Loading SDK from CDN..." info]
       (mkState (isInitialized (component w)) true
          (if Loader.LumenKeys page then page
           else Loader.mkWindow false (Loader.head page ++ [Loader.cdn_script])))
       (appState w) (sdkState w) (effects w)).
Proof.
  intros page. subst page.
  unfold handleInitialize_start, Loader.loadSDKFromCDN. run_handler.
  destruct (Loader.LumenKeys (window (component w))) eqn:G; world_fields; initialize_cells;
    cbv [setWindow setIsLoading]; initialize_cells; rewrite ?G; try reflexivity.
Qed.

(** X25.  [handleInitialize] always completes, whatever the script and
    [createKeySDK] do, and resets [isLoading].  It appends the CDN script to
    [document.head] exactly when the global was absent.  The application
    receives the SDK exactly when the global is available (present before,
    or defined by the script) and [createKeySDK] resolves; otherwise the
    application state and [isInitialized] are unchanged and the log ends
    with the failure. *)
Theorem handleInitialize_outcome {S} (createKeySDK : completion unit) (ev : ScriptEvent)
    (w : World S State) :
  let page := window (component w) in
  let available := Loader.LumenKeys page || defines_LumenKeys ev in
  exists w',
    handleInitialize createKeySDK ev w = Some (Returns tt, w')
    /\ isLoading (component w') = false
    /\ sdkState w' = sdkState w
    /\ effects w' = effects w
    /\ Loader.head (window (component w'))
       = Loader.head page ++ (if Loader.LumenKeys page then [] else [Loader.cdn_script])
    /\ match createKeySDK with
       | Returns _ =>
           if available
           then appState w' = App.setSdk (appState w)
                /\ isInitialized (component w') = true
                /\ length (logs w') = 8
           else appState w' = appState w
                /\ isInitialized (component w') = isInitialized (component w)
                /\ exists e, logs w' = [mkLogEntry "Loading SDK from CDN..." info;
                                        mkLogEntry ("Initialization failed: " ++ e) error]
       | Throws e =>
           appState w' = appState w
           /\ isInitialized (component w') = isInitialized (component w)
           /\ exists e', last (logs w') = Some (mkLogEntry ("Initialization failed: " ++ e') error)
                         /\ (available = true -> e' = e)
       end.
Proof.
  intros page available. subst available page.
  unfold handleInitialize. rewrite handleInitialize_start_outcome.
  destruct (Loader.LumenKeys (window (component w))) eqn:G; cbn [settled orb].
  - match goal with
    | |- context [handleInitialize_resume _ ?l ?w1] =>
        pose proof (handleInitialize_resume_outcome createKeySDK l w1) as R;
        destruct (handleInitialize_resume createKeySDK l w1) as [r w']
    end.
    cbn [fst snd] in R. world_fields in R. cbn [window component] in R.
    rewrite G in R. destruct R as (-> & Hl & Hs & He & Hw & R).
    exists w'. split; [reflexivity|]. rewrite Hw, app_nil_r.
    repeat (split; [assumption || reflexivity|]).
    destruct createKeySDK as [[]|e].
    + destruct R as (Ha & Hi & lines & Hlogs & Hlen & _).
      repeat split; try assumption. rewrite Hlogs, length_app, Hlen. reflexivity.
    + destruct R as (Ha & Hi & Hlogs). repeat split; try assumption.
      exists e. rewrite Hlogs. split; reflexivity.
  - world_fields. initialize_cells.
    destruct ev as [[|]|]; cbv [Loader.script_onerror script_fires];
      cbn [settled defines_LumenKeys];
      initialize_cells; cbn [settled]; cbv [setWindow setComponent]; cbn [snd];
      world_fields; initialize_cells.
    all: lazymatch goal with
      | |- context [handleInitialize_resume _ ?l ?w1] =>
          pose proof (handleInitialize_resume_outcome createKeySDK l w1) as R;
          destruct (handleInitialize_resume createKeySDK l w1) as [r w']
      end.
    all: cbn [fst snd] in R; world_fields in R; initialize_cells in R.
    all: destruct R as (-> & Hl & Hs & He & Hw & R).
    all: exists w'; (split; [reflexivity|]); rewrite Hw; initialize_cells.
    all: repeat (split; [assumption || reflexivity|]).
    + destruct createKeySDK as [[]|e].
      * destruct R as (Ha & Hi & lines & Hlogs & Hlen & _).
        repeat split; try assumption. rewrite Hlogs, length_app, Hlen. reflexivity.
      * destruct R as (Ha & Hi & Hlogs). repeat split; try assumption.
        exists e. rewrite Hlogs. split; reflexivity.
    + destruct R as (Ha & Hi & Hlogs).
      destruct createKeySDK as [[]|e]; repeat split; try assumption.
      * eexists. exact Hlogs.
      * eexists. rewrite Hlogs. split; [reflexivity | discriminate].
    + destruct R as (Ha & Hi & Hlogs).
      destruct createKeySDK as [[]|e]; repeat split; try assumption.
      * eexists. exact Hlogs.
      * eexists. rewrite Hlogs. split; [reflexivity | discriminate].
Qed.

(** X26.  The check [if (!window.LumenKeys)] after the loader never fires:
    unless [createKeySDK] itself rejects with that text, no run of
    [handleInitialize] logs [LumenKeys SDK not available]. *)
Theorem handleInitialize_guard_never_fires {S} (createKeySDK : completion unit)
    (ev : ScriptEvent) (w : World S State)
    (Hcreate : createKeySDK <> Throws "LumenKeys SDK not available") :
  forall r w',
    handleInitialize createKeySDK ev w = Some (r, w') ->
    ~ In (failed "LumenKeys SDK not available") (logs w').
Proof.
  intros r w'. unfold handleInitialize. rewrite handleInitialize_start_outcome.
  assert (K : forall (loaded : completion unit) (w1 : World S State),
             logs w1 = [mkLogEntry "Loading SDK from CDN..." info] ->
             loaded <> Throws "LumenKeys SDK not available" ->
             (loaded = Returns tt -> Loader.LumenKeys (window (component w1)) = true) ->
             Some (handleInitialize_resume createKeySDK loaded w1) = Some (r, w') ->
             ~ In (failed "LumenKeys SDK not available") (logs w')).
  { intros loaded w1 L0 Hl Hg E.
    pose proof (handleInitialize_resume_outcome createKeySDK loaded w1) as R.
    injection E as E. rewrite E in R. cbn [fst snd] in R.
    destruct R as (_ & _ & _ & _ & _ & R). rewrite L0 in R.
    destruct loaded as [[]|e].
    - rewrite (Hg eq_refl) in R. destruct createKeySDK as [[]|e].
      + destruct R as (_ & _ & lines & -> & _ & F). intros [D | D]; [discriminate D|].
        rewrite List.Forall_forall in F. apply (F _ D). reflexivity.
      + destruct R as (_ & _ & ->). intros [D | [D | [D | []]]]; try discriminate D.
        apply Hcreate. unfold failed in D. cbn in D. congruence.
    - destruct R as (_ & _ & ->). intros [D | [D | []]]; try discriminate D.
      apply Hl. unfold failed in D. cbn in D. congruence. }
  destruct (Loader.LumenKeys (window (component w))) eqn:G; cbn [settled].
  - apply K; [reflexivity | discriminate | intros _; exact G].
  - world_fields. initialize_cells.
    destruct ev as [[|]|]; cbv [Loader.script_onerror script_fires]; initialize_cells; cbn [settled];
      cbv [setWindow setComponent]; cbn [snd]; world_fields; initialize_cells;
      apply K; try reflexivity; try discriminate.
Qed.

Lemma handleInitialize_guard_never_fires_witness :
  let w := mkWorld [] (mkState false false (Loader.mkWindow false [])) App.initial tt [] in
  match handleInitialize (Throws "out of memory") (script_load false) w with
  | Some (_, w') => ~ In (failed "LumenKeys SDK not available") (logs w')
  | None => False
  end.
Proof.
  intros w.
  destruct (handleInitialize (Throws "out of memory") (script_load false) w)
    as [[r w']|] eqn:E.
  - apply (handleInitialize_guard_never_fires (Throws "out of memory") (script_load false) w
             ltac:(discriminate) r w' E).
  - vm_compute in E. discriminate E.
Defined.

End Initialisation.

(** ** The performance test *)









(** X28.  Without an SDK, [handleListKeys], [handleExportPublicKeys],
    [handleSaveKeys] and [handleRunPerformanceTest] return at once: log,
    component cells, application state and SDK are untouched, and nothing
    is called. *)
Theorem without_sdk_nothing_happens {S} (sdk : KeySDK S) (more : KeySDKUndeclared S)
    (a : App.State) (st : S) (x : list Effect) (Hsdk : App.sdk a = false) :
  (forall l c, let w := mkWorld l c a st x in handleListKeys sdk w = (Returns tt, w))
  /\ (forall l c, let w := mkWorld l c a st x in
        KeyExportSection.handleExportPublicKeys more w = (Returns tt, w))
  /\ (forall l c, let w := mkWorld l c a st x in
        KeyStorageSection.handleSaveKeys more w = (Returns tt, w))
  /\ (forall l c, let w := mkWorld l c a st x in
        PerformanceSection.handleRunPerformanceTest sdk w = (Returns tt, w)).
Proof.
  repeat split; intros l c w; subst w;
    [unfold handleListKeys | unfold KeyExportSection.handleExportPublicKeys
    | unfold KeyStorageSection.handleSaveKeys
    | unfold PerformanceSection.handleRunPerformanceTest];
    cbv [mbind mret Handler_bind Handler_ret read]; cbn [appState]; rewrite Hsdk;
    reflexivity.
Qed.

Lemma without_sdk_nothing_happens_witness :
  let w := mkWorld [mkLogEntry "earlier" info] true App.initial KeyStore.empty [] in
  PerformanceSection.handleRunPerformanceTest Demo.the_sdk w = (Returns tt, w).
Proof.
  intros w.
  exact (proj2 (proj2 (proj2
           (without_sdk_nothing_happens Demo.the_sdk demo_undeclared App.initial
              KeyStore.empty [] eq_refl))) [mkLogEntry "earlier" info] true).
Defined.
